(** * Argus CPU display service: a shallow embedding and its properties

    The development follows [argus-cpu-display-service.py]:

    - the ctypes overlay of Argus Monitor's shared region
      ([ArgusMonitorSensorData], [ArgusMonitorData]) and the reader
      [ArgusMonitorAPI] with its cached CPU-temperature location;
    - [CPUDisplayService]: the 65-byte output report, [write_temp] with its
      debounce and mandatory refresh, one iteration of [update_loop], and the
      connection retries of [start].

    Python values keep their shape: an attribute that holds [None] or a
    number is an [option]; a call that may raise returns a [result]; a
    [c_uint32] is an [N]; a [c_double] is a [spec_float]; the bytearray is a
    list of integers updated by index.  Clock readings ([time.time()]) are
    exact rationals, in seconds.  Console output is left out. *)

From Stdlib Require Import ZArith NArith QArith Qabs Bool List String Lia.
From Stdlib Require Import Floats.SpecFloat.
From Stdlib Require Import Ascii DecimalString DecimalN.
From stdpp Require Import base list.

#[local] Open Scope Z_scope.

(** ** Constants of the module *)

Definition ARGUS_SIGNATURE : N := 0x4D677241%N.

Definition SENSOR_TYPE_CPU_TEMPERATURE : nat := 6.
Definition SENSOR_TYPE_CPU_TEMPERATURE_ADDITIONAL : nat := 7.
Definition SENSOR_TYPE_MAX_SENSORS : nat := 26.

Definition MAX_SENSOR_COUNT : nat := 512.

Definition USB_PACKET_SIZE : nat := 65.
Definition USB_PACKET_REPORT_ID : Z := 0x00.
Definition USB_PACKET_COMMAND : Z := 0x10.

Definition TEMP_MIN : Z := 0.
Definition TEMP_MAX : Z := 99.

Definition MANDATORY_UPDATE_INTERVAL : Q := 15.

Definition ARGUS_CONNECTION_MAX_RETRIES : nat := 6.
Definition ARGUS_CONNECTION_RETRY_DELAY : Z := 10.

(** ** Python results *)

(** The exceptions the modelled code can meet. *)
Inductive exn : Type :=
  | TypeError
  | IndexError
  | ValueError
  | OverflowError
  | AttributeError
  | IOError
  | OSError.

(** A call either returns a value or raises. *)
Inductive result (A : Type) : Type :=
  | Ret (a : A)
  | Raise (e : exn).
Arguments Ret {A} a.
Arguments Raise {A} e.

(** Sequencing stops at the first exception: [x ← r; k] is stdpp's notation
    for [mbind]. *)
#[global] Instance result_bind : MBind result := fun _ _ k r =>
  match r with
  | Ret a => k a
  | Raise e => Raise e
  end.

(** ** Floating-point values and [round]

    A [c_double] is an IEEE 754 value: a signed zero, an infinity, a NaN, or
    [(-1)^s * m * 2^e]. *)

Definition signed (s : bool) (m : positive) : Z :=
  if s then Z.neg m else Z.pos m.

(** The rational a finite float denotes; [None] for infinities and NaN. *)
Definition float_val (f : spec_float) : option Q :=
  match f with
  | S754_zero _ => Some 0%Q
  | S754_finite s m (Z.neg p) => Some (signed s m # Pos.pow 2 p)
  | S754_finite s m e => Some (inject_Z (signed s m * 2 ^ e))
  | S754_infinity _ | S754_nan => None
  end.

(** Nearest integer to [n / d], ties to the even neighbour. *)
Definition round_half_even (n : Z) (d : positive) : Z :=
  let q := n / Z.pos d in
  let r := n mod Z.pos d in
  match 2 * r ?= Z.pos d with
  | Lt => q
  | Gt => q + 1
  | Eq => if Z.even q then q else q + 1
  end.

(** Python's [round(x)] on a float, without [ndigits]: the nearest integer,
    half to even; [ValueError] on NaN and [OverflowError] on an infinity. *)
Definition py_round (f : spec_float) : result Z :=
  match f with
  | S754_zero _ => Ret 0
  | S754_nan => Raise ValueError
  | S754_infinity _ => Raise OverflowError
  | S754_finite s m (Z.neg p) => Ret (round_half_even (signed s m) (Pos.pow 2 p))
  | S754_finite s m e => Ret (signed s m * 2 ^ e)
  end.

(** Some binary64 values, in canonical form (53-bit mantissa). *)
Definition f_150 : spec_float := S754_finite false (150 * 2 ^ 45) (-45).
Definition f_neg10 : spec_float := S754_finite true (10 * 2 ^ 49) (-49).
Definition f_42_0 : spec_float := S754_finite false (42 * 2 ^ 47) (-47).
Definition f_42_4 : spec_float := S754_finite false 5967269506265907 (-47).
Definition f_42_5 : spec_float := S754_finite false (85 * 2 ^ 46) (-47).
Definition f_42_6 : spec_float := S754_finite false 5995417003936973 (-47).
Definition f_43_5 : spec_float := S754_finite false (87 * 2 ^ 46) (-47).
Definition f_inf : spec_float := S754_infinity false.
Definition f_nan : spec_float := S754_nan.


(** ** The shared region

    A ctypes array of fixed length is a view onto that many consecutive cells
    of the mapping: its contents are given per index, and ctypes checks every
    index against the length. *)

Definition carray (T : Type) : Type := nat -> T.

Definition carray_get {T : Type} (len : nat) (a : carray T) (i : N) : result T :=
  if (N.to_nat i <? len)%nat then Ret (a (N.to_nat i)) else Raise IndexError.

Record ArgusMonitorSensorData : Type := {
  SensorType : N;
  Label : string;
  UnitString : string;
  Value : spec_float;
  DataIndex : N;
  SensorIndex : N
}.

Record ArgusMonitorData : Type := {
  Signature : N;
  ArgusMajor : N;
  ArgusMinorA : N;
  ArgusMinorB : N;
  ArgusExtra : N;
  ArgusBuild : N;
  Version : N;
  CycleCounter : N;
  OffsetForSensorType : carray N;
  SensorCount : carray N;
  TotalSensorCount : N;
  SensorData : carray ArgusMonitorSensorData
}.

(** ** ArgusMonitorAPI

    The object keeps the cached location of the CPU temperature; both
    attributes are [None] until [_cache_sensor_info] fills them.  The mapping
    is foreign memory: every method reads the contents the region has when it
    is called, passed here as [data]. *)

Record ArgusMonitorAPI : Type := {
  cpu_temp_offset : option N;
  cpu_temp_count : option N
}.

Definition is_active (data : ArgusMonitorData) : bool :=
  (Signature data =? ARGUS_SIGNATURE)%N.

Definition _cache_sensor_info (self : ArgusMonitorAPI) (data : ArgusMonitorData)
  : ArgusMonitorAPI :=
  if negb (Signature data =? ARGUS_SIGNATURE)%N then self
  else
    let offset := OffsetForSensorType data SENSOR_TYPE_CPU_TEMPERATURE in
    let count := SensorCount data SENSOR_TYPE_CPU_TEMPERATURE in
    if (count =? 0)%N then
      {| cpu_temp_offset :=
           Some (OffsetForSensorType data SENSOR_TYPE_CPU_TEMPERATURE_ADDITIONAL);
         cpu_temp_count :=
           Some (SensorCount data SENSOR_TYPE_CPU_TEMPERATURE_ADDITIONAL) |}
    else
      {| cpu_temp_offset := Some offset; cpu_temp_count := Some count |}.

(** [__init__]: opening the mapping may raise [OSError]; [opened] is what
    [_open_shared_memory] did. *)
Definition ArgusMonitorAPI_init (opened : result unit) (data : ArgusMonitorData)
  : result ArgusMonitorAPI :=
  _ ← opened;
  Ret (_cache_sensor_info {| cpu_temp_offset := None; cpu_temp_count := None |} data).

(** [self.cpu_temp_count == 0]: [None == 0] is false in Python. *)
Definition count_is_zero (c : option N) : bool :=
  match c with
  | Some n => (n =? 0)%N
  | None => false
  end.

(** [None] of Python is [Ret None]; indexing the sensor array with [None]
    raises [TypeError], and with an index past the array [IndexError]. *)
Definition get_cpu_temp_raw (self : ArgusMonitorAPI) (data : ArgusMonitorData)
  : result (option spec_float) :=
  if count_is_zero (cpu_temp_count self) then Ret None
  else if negb (Signature data =? ARGUS_SIGNATURE)%N then Ret None
  else
    match cpu_temp_offset self with
    | None => Raise TypeError
    | Some offset =>
        sensor ← carray_get MAX_SENSOR_COUNT (SensorData data) offset;
        Ret (Some (Value sensor))
    end.

Definition get_cpu_temp (self : ArgusMonitorAPI) (data : ArgusMonitorData)
  : result (option Z) :=
  raw_temp ← get_cpu_temp_raw self data;
  match raw_temp with
  | Some f => r ← py_round f; Ret (Some r)
  | None => Ret None
  end.

(** An entry of the list [get_all_cpu_temps] returns; its ["type"] is always
    ["core"]. *)
Record cpu_temp_entry : Type := {
  entry_label : string;
  entry_value : spec_float;
  entry_unit : string
}.

(** The body of [for i in range(count)], over the indices still to visit. *)
Fixpoint collect_cpu_temps (sensors : carray ArgusMonitorSensorData) (offset : N)
    (indices : list nat) (temps : list cpu_temp_entry)
  : result (list cpu_temp_entry) :=
  match indices with
  | [] => Ret temps
  | i :: rest =>
      sensor ← carray_get MAX_SENSOR_COUNT sensors (offset + N.of_nat i)%N;
      collect_cpu_temps sensors offset rest
        (temps ++ [ {| entry_label := Label sensor;
                       entry_value := Value sensor;
                       entry_unit := UnitString sensor |} ])
  end.

Definition get_all_cpu_temps (data : ArgusMonitorData)
  : result (list cpu_temp_entry) :=
  if negb (Signature data =? ARGUS_SIGNATURE)%N then Ret []
  else
    let offset := OffsetForSensorType data SENSOR_TYPE_CPU_TEMPERATURE in
    let count := SensorCount data SENSOR_TYPE_CPU_TEMPERATURE in
    collect_cpu_temps (SensorData data) offset (seq 0 (N.to_nat count)) [].

(** ** CPUDisplayService *)

(** The HID handle: [hid.device()] creates it closed, [open] opens it. *)
Record hid_device : Type := { opened : bool }.

Record CPUDisplayService : Type := {
  argus : option ArgusMonitorAPI;
  device : option hid_device;
  packet : list Z;
  last_temp : Z;
  next_mandatory_write_time : Q
}.

(** What the service does to the outside, in order. *)
Inductive event : Type :=
  | EvConnectArgus
  | EvSleep (seconds : Z)
  | EvOpenDisplay
  | EvDeviceWrite (report : list Z).

Definition CPUDisplayService_init : CPUDisplayService :=
  {| argus := None;
     device := None;
     packet := <[1%nat := USB_PACKET_COMMAND]>
                 (<[0%nat := USB_PACKET_REPORT_ID]> (replicate USB_PACKET_SIZE 0));
     last_temp := -1;
     next_mandatory_write_time := 0 |}.

(** [b[i] = v] on a bytearray: the index must exist and the value be a byte. *)
Definition bytearray_setitem (b : list Z) (i : nat) (v : Z) : result (list Z) :=
  if negb (i <? length b)%nat then Raise IndexError
  else if negb ((0 <=? v) && (v <? 256)) then Raise ValueError
  else Ret (<[i := v]> b).

(** What one call of [ArgusMonitorAPI()] followed by [is_active()] meets:
    whether the mapping opens, and the region's contents at the two reads. *)
Record argus_attempt : Type := {
  att_opened : result unit;
  att_data_init : ArgusMonitorData;
  att_data_check : ArgusMonitorData
}.

Definition connect_argus (self : CPUDisplayService) (att : argus_attempt)
  : bool * CPUDisplayService :=
  match ArgusMonitorAPI_init (att_opened att) (att_data_init att) with
  | Raise _ => (false, self)
  | Ret api =>
      let self1 :=
        {| argus := Some api; device := device self; packet := packet self;
           last_temp := last_temp self;
           next_mandatory_write_time := next_mandatory_write_time self |} in
      (is_active (att_data_check att), self1)
  end.

(** [open_result] is what [self.device.open(VENDOR_ID, PRODUCT_ID)] did. *)
Definition connect_display (self : CPUDisplayService) (open_result : result unit)
  : bool * CPUDisplayService :=
  match open_result with
  | Raise _ =>
      (false,
       {| argus := argus self; device := Some {| opened := false |};
          packet := packet self; last_temp := last_temp self;
          next_mandatory_write_time := next_mandatory_write_time self |})
  | Ret _ =>
      (true,
       {| argus := argus self; device := Some {| opened := true |};
          packet := packet self; last_temp := last_temp self;
          next_mandatory_write_time := 0 |})
  end.

(** Lines 326-330: round, then clamp to [TEMP_MIN, TEMP_MAX]. *)
Definition clamp_temp (temp_int : Z) : Z :=
  if temp_int >? TEMP_MAX then TEMP_MAX
  else if temp_int <? TEMP_MIN then TEMP_MIN
  else temp_int.

Definition rounded_temp (raw_temp : spec_float) : result Z :=
  temp_int ← py_round raw_temp;
  Ret (clamp_temp temp_int).

(** [write_temp]: [written] is what [self.device.write(self.packet)] did and
    [now_after] the clock read after it.  Both [except] clauses return
    [False]; what was assigned before the exception stays assigned. *)
Definition write_temp (self : CPUDisplayService) (raw_temp : spec_float)
    (force : bool) (written : result unit) (now_after : Q)
  : bool * CPUDisplayService * list event :=
  match device self with
  | None => (false, self, [])
  | Some dev =>
      match rounded_temp raw_temp with
      | Raise _ => (false, self, [])
      | Ret temp_int =>
          if negb force && (temp_int =? last_temp self) then (true, self, [])
          else
            match bytearray_setitem (packet self) 2 temp_int with
            | Raise _ =>
                (false,
                 {| argus := argus self; device := device self;
                    packet := packet self; last_temp := temp_int;
                    next_mandatory_write_time := next_mandatory_write_time self |},
                 [])
            | Ret packet1 =>
                match written with
                | Raise _ =>
                    (false,
                     {| argus := argus self; device := device self;
                        packet := packet1; last_temp := temp_int;
                        next_mandatory_write_time :=
                          next_mandatory_write_time self |},
                     [EvDeviceWrite packet1])
                | Ret _ =>
                    (true,
                     {| argus := argus self; device := device self;
                        packet := packet1; last_temp := temp_int;
                        next_mandatory_write_time :=
                          (now_after + MANDATORY_UPDATE_INTERVAL)%Q |},
                     [EvDeviceWrite packet1])
                end
            end
      end
  end.

(** What one iteration of [update_loop] meets: the region's contents, the
    clock at the deadline test, the outcome of the device write and the
    clock after it. *)
Record tick_env : Type := {
  tick_data : ArgusMonitorData;
  tick_now : Q;
  tick_written : result unit;
  tick_now_after : Q
}.

(** [time.time() >= self.next_mandatory_write_time] *)
Definition force_write (self : CPUDisplayService) (now : Q) : bool :=
  Qle_bool (next_mandatory_write_time self) now.

(** The body of the [while] loop, the wait apart.  An exception of
    [get_cpu_temp_raw] is not caught and ends the loop. *)
Definition update_tick (self : CPUDisplayService) (env : tick_env)
  : result (CPUDisplayService * list event) :=
  match argus self with
  | None => Raise AttributeError
  | Some api =>
      raw_temp ← get_cpu_temp_raw api (tick_data env);
      match raw_temp with
      | None => Ret (self, [])
      | Some raw =>
          let '(_, self1, evs) :=
            write_temp self raw (force_write self (tick_now env))
              (tick_written env) (tick_now_after env) in
          Ret (self1, evs)
      end
  end.

(** [update_loop] over the iterations that run before the stop event is
    set; the events of an iteration that raised are those of its
    predecessors. *)
Fixpoint update_loop (self : CPUDisplayService) (ticks : list tick_env)
  : result unit * CPUDisplayService * list event :=
  match ticks with
  | [] => (Ret tt, self, [])
  | env :: rest =>
      match update_tick self env with
      | Raise e => (Raise e, self, [])
      | Ret (self1, evs) =>
          let '(r, self2, evs2) := update_loop self1 rest in
          (r, self2, evs ++ evs2)
      end
  end.

(** How the [for] loop of [start] is left: by [break], by exhausting the
    range, or by [return]. *)
Inductive loop_exit : Type :=
  | LoopBreak
  | LoopDone
  | LoopReturn (b : bool).

(** [for attempt in range(ARGUS_CONNECTION_MAX_RETRIES)], over the attempts
    still to make; [env attempt] is what that attempt meets. *)
Fixpoint connect_loop (self : CPUDisplayService) (attempts : list nat)
    (env : nat -> argus_attempt)
  : loop_exit * CPUDisplayService * list event :=
  match attempts with
  | [] => (LoopDone, self, [])
  | attempt :: rest =>
      let '(ok, self1) := connect_argus self (env attempt) in
      if ok then (LoopBreak, self1, [EvConnectArgus])
      else if (attempt <? ARGUS_CONNECTION_MAX_RETRIES - 1)%nat then
        let '(x, self2, evs) := connect_loop self1 rest env in
        (x, self2, EvConnectArgus :: EvSleep ARGUS_CONNECTION_RETRY_DELAY :: evs)
      else (LoopReturn false, self1, [EvConnectArgus])
  end.

Record start_env : Type := {
  start_attempts : nat -> argus_attempt;
  start_display : result unit;
  start_data : ArgusMonitorData
}.

(** [start], up to the creation of the update thread. *)
Definition start (self : CPUDisplayService) (env : start_env)
  : result bool * CPUDisplayService * list event :=
  let '(x, self1, evs) :=
    connect_loop self (seq 0 ARGUS_CONNECTION_MAX_RETRIES) (start_attempts env) in
  match x with
  | LoopReturn b => (Ret b, self1, evs)
  | _ =>
      let '(ok, self2) := connect_display self1 (start_display env) in
      if negb ok then (Ret false, self2, evs ++ [EvOpenDisplay])
      else
        match argus self2 with
        | None => (Raise AttributeError, self2, evs ++ [EvOpenDisplay])
        | Some _ =>
            match get_all_cpu_temps (start_data env) with
            | Raise e => (Raise e, self2, evs ++ [EvOpenDisplay])
            | Ret _ => (Ret true, self2, evs ++ [EvOpenDisplay])
            end
        end
  end.

(** The life of the service: [start], then the update thread over the
    iterations that run before [stop]. *)
Definition service_run (env : start_env) (ticks : list tick_env) : list event :=
  let '(r, self1, evs) := start CPUDisplayService_init env in
  match r with
  | Ret true => let '(_, _, evs2) := update_loop self1 ticks in evs ++ evs2
  | _ => evs
  end.

(** ** The specification's words *)

(** [r] is an integer nearest to [v]. *)
Definition nearest_integer (v : Q) (r : Z) : Prop :=
  (Qabs (v - inject_Z r) <= 1 # 2)%Q.

(** Clamping to [0, 99]. *)
Definition spec_clamp (r : Z) : Z := Z.max 0 (Z.min 99 r).

(** The shape of an output report: 65 bytes, report ID, command code, the
    temperature, zeros. *)
Definition packet_shape (p : list Z) : Prop :=
  length p = 65%nat /\
  p !! 0%nat = Some 0x00 /\
  p !! 1%nat = Some 0x10 /\
  (exists t, p !! 2%nat = Some t /\ 0 <= t <= 99) /\
  (forall i, (3 <= i < 65)%nat -> p !! i = Some 0).

(** The state [write_temp] leaves when it reaches the device write. *)
Definition after_write (self : CPUDisplayService) (t : Z) (deadline : Q)
  : CPUDisplayService :=
  {| argus := argus self; device := device self;
     packet := <[2%nat := t]> (packet self); last_temp := t;
     next_mandatory_write_time := deadline |}.

(** The events of a trace, counted. *)
Definition count_connects (evs : list event) : nat :=
  length (List.filter (fun e => match e with EvConnectArgus => true | _ => false end) evs).

Definition sleeps (evs : list event) : list Z :=
  omap (fun e => match e with EvSleep s => Some s | _ => None end) evs.

Definition opens_display (evs : list event) : bool :=
  existsb (fun e => match e with EvOpenDisplay => true | _ => false end) evs.

Definition device_writes (evs : list event) : list (list Z) :=
  omap (fun e => match e with EvDeviceWrite p => Some p | _ => None end) evs.

(** The events of [n] failed attempts, each followed by the retry delay,
    and one more attempt. *)
Fixpoint retry_trace (n : nat) : list event :=
  match n with
  | O => [EvConnectArgus]
  | S n' =>
      EvConnectArgus :: EvSleep ARGUS_CONNECTION_RETRY_DELAY :: retry_trace n'
  end.

(** An attempt succeeds when the mapping opens and the signature is right at
    the [is_active] read. *)
Definition attempt_succeeds (att : argus_attempt) : bool :=
  match att_opened att with
  | Ret _ => is_active (att_data_check att)
  | Raise _ => false
  end.

(** The states the methods of a service can produce from [__init__]. *)
Inductive reachable : CPUDisplayService -> Prop :=
  | reach_init : reachable CPUDisplayService_init
  | reach_connect_argus self att :
      reachable self -> reachable (connect_argus self att).2
  | reach_connect_display self open_result :
      reachable self -> reachable (connect_display self open_result).2
  | reach_write_temp self raw force written now :
      reachable self -> reachable (write_temp self raw force written now).1.2.

(** The last written value: the temperature in the last report the device
    took, over the calls that led to a state; [None] before the first. *)
Inductive last_written : CPUDisplayService -> option Z -> Prop :=
  | written_init : last_written CPUDisplayService_init None
  | written_connect_argus self att w :
      last_written self w -> last_written (connect_argus self att).2 w
  | written_connect_display self open_result w :
      last_written self w -> last_written (connect_display self open_result).2 w
  | written_write_temp self raw force written now w :
      last_written self w ->
      last_written (write_temp self raw force written now).1.2
        match written, device_writes (write_temp self raw force written now).2 with
        | Ret _, report :: _ => report !! 2%nat
        | _, _ => w
        end.

(** [last_temp] holds the last written value: no device write has failed
    since the last one that succeeded. *)
Definition last_temp_was_written (self : CPUDisplayService) (w : option Z) : Prop :=
  last_temp self = match w with Some value => value | None => -1 end.

(** The Running state: both connections were made. *)
Definition running (self : CPUDisplayService) : Prop :=
  reachable self /\
  (exists api, argus self = Some api) /\
  device self = Some {| opened := true |}.

(** ** The diagnostic listing

    [get_all_sensors] names each record's type from a table of the 26 known
    codes, falls back on [UNKNOWN_<code>], and strips NUL characters from
    both ends of the two texts. *)

(** The entry [get_all_cpu_temps] makes of a record. *)
Definition cpu_temp_entry_of (sensor : ArgusMonitorSensorData) : cpu_temp_entry :=
  {| entry_label := Label sensor;
     entry_value := Value sensor;
     entry_unit := UnitString sensor |}.

Definition sensor_type_names (ty : N) : option string :=
  match ty with
  | 0%N => Some "INVALID"
  | 1%N => Some "TEMPERATURE"
  | 2%N => Some "SYNTHETIC_TEMPERATURE"
  | 3%N => Some "FAN_SPEED_RPM"
  | 4%N => Some "FAN_CONTROL_VALUE"
  | 5%N => Some "NETWORK_SPEED"
  | 6%N => Some "CPU_TEMPERATURE"
  | 7%N => Some "CPU_TEMPERATURE_ADDITIONAL"
  | 8%N => Some "CPU_MULTIPLIER"
  | 9%N => Some "CPU_FREQUENCY_FSB"
  | 10%N => Some "GPU_TEMPERATURE"
  | 11%N => Some "GPU_NAME"
  | 12%N => Some "GPU_LOAD"
  | 13%N => Some "GPU_CORECLK"
  | 14%N => Some "GPU_MEMORYCLK"
  | 15%N => Some "GPU_SHARERCLK"
  | 16%N => Some "GPU_FAN_SPEED_PERCENT"
  | 17%N => Some "GPU_FAN_SPEED_RPM"
  | 18%N => Some "GPU_MEMORY_USED_PERCENT"
  | 19%N => Some "GPU_MEMORY_USED_MB"
  | 20%N => Some "GPU_POWER"
  | 21%N => Some "DISK_TEMPERATURE"
  | 22%N => Some "DISK_TRANSFER_RATE"
  | 23%N => Some "CPU_LOAD"
  | 24%N => Some "RAM_USAGE"
  | 25%N => Some "BATTERY"
  | _ => None
  end%string.

(** An integer in an f-string: its decimal digits. *)
Definition str_of_N (n : N) : string := NilEmpty.string_of_uint (N.to_uint n).

(** [sensor_type_names.get(ty, f"UNKNOWN_{ty}")] *)
Definition sensor_type_name (ty : N) : string :=
  match sensor_type_names ty with
  | Some name => name
  | None => String.append "UNKNOWN_" (str_of_N ty)
  end.

Definition NUL : ascii := Ascii.zero.

Fixpoint lstrip_nul (s : string) : string :=
  match s with
  | EmptyString => EmptyString
  | String c s' => if Ascii.eqb c NUL then lstrip_nul s' else s
  end.

Fixpoint rstrip_nul (s : string) : string :=
  match s with
  | EmptyString => EmptyString
  | String c s' =>
      match rstrip_nul s' with
      | EmptyString => if Ascii.eqb c NUL then EmptyString else String c EmptyString
      | rest => String c rest
      end
  end.

(** [s.strip('\x00')] *)
Definition strip_nul (s : string) : string := rstrip_nul (lstrip_nul s).

(** The first and the last character of a text. *)
Definition head_char (s : string) : option ascii :=
  match s with
  | EmptyString => None
  | String c _ => Some c
  end.

Fixpoint last_char (s : string) : option ascii :=
  match s with
  | EmptyString => None
  | String c EmptyString => Some c
  | String _ s' => last_char s'
  end.

(** An entry of the list [get_all_sensors] returns. *)
Record sensor_entry : Type := {
  sensor_type : string;
  sensor_type_id : N;
  sensor_label : string;
  sensor_unit : string;
  sensor_value : spec_float;
  data_index : N;
  sensor_index : N
}.

Definition sensor_entry_of (sensor : ArgusMonitorSensorData) : sensor_entry :=
  {| sensor_type := sensor_type_name (SensorType sensor);
     sensor_type_id := SensorType sensor;
     sensor_label := strip_nul (Label sensor);
     sensor_unit := strip_nul (UnitString sensor);
     sensor_value := Value sensor;
     data_index := DataIndex sensor;
     sensor_index := SensorIndex sensor |}.

(** The body of [for i in range(data.TotalSensorCount)], over the indices
    still to visit. *)
Fixpoint collect_sensors (sensor_data : carray ArgusMonitorSensorData)
    (indices : list nat) (sensors : list sensor_entry)
  : result (list sensor_entry) :=
  match indices with
  | [] => Ret sensors
  | i :: rest =>
      sensor ← carray_get MAX_SENSOR_COUNT sensor_data (N.of_nat i);
      collect_sensors sensor_data rest (sensors ++ [sensor_entry_of sensor])
  end.

Definition get_all_sensors (data : ArgusMonitorData) : result (list sensor_entry) :=
  if negb (Signature data =? ARGUS_SIGNATURE)%N then Ret []
  else
    collect_sensors (SensorData data)
      (seq 0 (N.to_nat (TotalSensorCount data))) [].

(** ** The mapping's handles

    [_open_shared_memory] and [close] work on the two handles of an
    [ArgusMonitorAPI].  A [HANDLE] or a pointer that kernel32 returns reads as
    [None] when it is null; the calls made are recorded in order. *)

Inductive os_call : Type :=
  | OpenFileMappingW
  | MapViewOfFile (h : N)
  | UnmapViewOfFile (view : N)
  | CloseHandle (h : N)
  | GetLastError.

Record mapping_handles : Type := {
  handle : option N;
  map_view : option N
}.

(** Truth value of a handle attribute: [None] and 0 are false. *)
Definition truthy (x : option N) : option N :=
  match x with
  | Some n => if (n =? 0)%N then None else Some n
  | None => None
  end.

(** [open_ret] and [map_ret] are what [OpenFileMappingW] and
    [MapViewOfFile] return. *)
Definition _open_shared_memory (self : mapping_handles) (open_ret map_ret : option N)
  : result unit * mapping_handles * list os_call :=
  let self1 := {| handle := open_ret; map_view := map_view self |} in
  match truthy (handle self1) with
  | None => (Raise OSError, self1, [OpenFileMappingW; GetLastError])
  | Some h =>
      let self2 := {| handle := handle self1; map_view := map_ret |} in
      match truthy (map_view self2) with
      | None =>
          (Raise OSError, self2,
           [OpenFileMappingW; MapViewOfFile h; GetLastError; CloseHandle h])
      | Some _ => (Ret tt, self2, [OpenFileMappingW; MapViewOfFile h])
      end
  end.

Definition close (self : mapping_handles) : mapping_handles * list os_call :=
  let '(self1, calls1) :=
    match truthy (map_view self) with
    | Some v => ({| handle := handle self; map_view := None |}, [UnmapViewOfFile v])
    | None => (self, [])
    end in
  match truthy (handle self1) with
  | Some h => ({| handle := None; map_view := map_view self1 |}, calls1 ++ [CloseHandle h])
  | None => (self1, calls1)
  end.

(** The handles of a fresh object, as [__init__] sets them. *)
Definition mapping_handles_init : mapping_handles :=
  {| handle := None; map_view := None |}.

(** ** The layout of the region

    The two [ctypes.Structure]s, as their [_fields_] declare them under
    [_pack_ = 1]: fields follow each other without padding.  The width of a
    [c_wchar] is the platform's. *)

#[warnings="-register-all"] Inductive ctype : Type :=
  | c_uint8
  | c_uint32
  | c_double
  | c_wchar
  | c_array (elem : ctype) (n : nat)
  | c_struct (fields : list ctype).

Fixpoint sizeof (wchar : nat) (t : ctype) : nat :=
  match t with
  | c_uint8 => 1
  | c_uint32 => 4
  | c_double => 8
  | c_wchar => wchar
  | c_array elem n => n * sizeof wchar elem
  | c_struct fields =>
      (fix total (fs : list ctype) : nat :=
         match fs with
         | [] => 0
         | ft :: rest => sizeof wchar ft + total rest
         end) fields
  end%nat.

(** A structure with named fields. *)
Definition structure (fields : list (string * ctype)) : ctype :=
  c_struct (map snd fields).

(** The offset of a field in a packed structure, and its type. *)
Fixpoint field_at (wchar : nat) (fields : list (string * ctype)) (name : string)
  : option (nat * ctype) :=
  match fields with
  | [] => None
  | (n, ft) :: rest =>
      if String.eqb n name then Some (0, ft)
      else
        match field_at wchar rest name with
        | Some (off, t) => Some (sizeof wchar ft + off, t)
        | None => None
        end
  end%nat.

Definition MAPPING_SIZE : nat := 1024 * 1024.

Definition MAX_LEN_UNIT : nat := 32.
Definition MAX_LEN_LABEL : nat := 64.

Definition ArgusMonitorSensorData_fields : list (string * ctype) :=
  [ ("SensorType", c_uint32);
    ("Label", c_array c_wchar MAX_LEN_LABEL);
    ("UnitString", c_array c_wchar MAX_LEN_UNIT);
    ("Value", c_double);
    ("DataIndex", c_uint32);
    ("SensorIndex", c_uint32) ]%string.

Definition ArgusMonitorData_fields : list (string * ctype) :=
  [ ("Signature", c_uint32);
    ("ArgusMajor", c_uint8);
    ("ArgusMinorA", c_uint8);
    ("ArgusMinorB", c_uint8);
    ("ArgusExtra", c_uint8);
    ("ArgusBuild", c_uint32);
    ("Version", c_uint32);
    ("CycleCounter", c_uint32);
    ("OffsetForSensorType", c_array c_uint32 SENSOR_TYPE_MAX_SENSORS);
    ("SensorCount", c_array c_uint32 SENSOR_TYPE_MAX_SENSORS);
    ("TotalSensorCount", c_uint32);
    ("SensorData", c_array (structure ArgusMonitorSensorData_fields) MAX_SENSOR_COUNT)
  ]%string.

(** The bytes [data.SensorData[i].<name>] reads: first byte and length. *)
Definition sensor_field_extent (wchar : nat) (i : nat) (name : string)
  : option (nat * nat) :=
  match field_at wchar ArgusMonitorData_fields "SensorData",
        field_at wchar ArgusMonitorSensorData_fields name with
  | Some (base, _), Some (off, t) =>
      Some (base + i * sizeof wchar (structure ArgusMonitorSensorData_fields) + off,
            sizeof wchar t)%nat
  | _, _ => None
  end.

(** ** Sample regions and states *)

Definition sensor_of (ty : N) (name : string) (v : spec_float)
  : ArgusMonitorSensorData :=
  {| SensorType := ty; Label := name; UnitString := "C"%string;
     Value := v; DataIndex := 0; SensorIndex := 0 |}.

Definition no_sensor : ArgusMonitorSensorData :=
  {| SensorType := 0; Label := ""%string; UnitString := ""%string;
     Value := S754_zero false; DataIndex := 0; SensorIndex := 0 |}.

Definition region (signature : N) (offsets counts : carray N)
    (sensors : carray ArgusMonitorSensorData) : ArgusMonitorData :=
  {| Signature := signature;
     ArgusMajor := 7; ArgusMinorA := 0; ArgusMinorB := 0; ArgusExtra := 0;
     ArgusBuild := 0; Version := 1; CycleCounter := 0;
     OffsetForSensorType := offsets; SensorCount := counts;
     TotalSensorCount := 0; SensorData := sensors |}.

(** Two primary CPU temperatures at positions 3 and 4. *)
Definition region_primary : ArgusMonitorData :=
  region ARGUS_SIGNATURE
    (fun ty => match ty with 6%nat => 3 | _ => 0 end)%N
    (fun ty => match ty with 6%nat => 2 | _ => 0 end)%N
    (fun i => match i with
              | 3%nat => sensor_of 6 "CPU" f_42_4
              | 4%nat => sensor_of 6 "CPU 2" f_42_6
              | _ => no_sensor
              end).

(** No primary CPU temperature, one additional at position 5. *)
Definition region_fallback : ArgusMonitorData :=
  region ARGUS_SIGNATURE
    (fun ty => match ty with 7%nat => 5 | _ => 0 end)%N
    (fun ty => match ty with 7%nat => 1 | _ => 0 end)%N
    (fun i => match i with
              | 5%nat => sensor_of 7 "CCD" f_42_5
              | _ => no_sensor
              end).

(** Neither category has an entry. *)
Definition region_empty : ArgusMonitorData :=
  region ARGUS_SIGNATURE (fun _ => 0%N) (fun _ => 0%N) (fun _ => no_sensor).

(** The contents of [region_primary] under a signature that is not Argus's. *)
Definition region_stale : ArgusMonitorData :=
  region 0
    (OffsetForSensorType region_primary) (SensorCount region_primary)
    (SensorData region_primary).

(** An API object whose cache was never filled. *)
Definition api_unpopulated : ArgusMonitorAPI :=
  {| cpu_temp_offset := None; cpu_temp_count := None |}.

(** A running service that showed 42 degrees at clock 1000. *)
Definition service_showing_42 : CPUDisplayService :=
  {| argus := Some (_cache_sensor_info api_unpopulated region_primary);
     device := Some {| opened := true |};
     packet := <[2%nat := 42]> (packet CPUDisplayService_init);
     last_temp := 42;
     next_mandatory_write_time := 1015 |}.

Definition attempt_ok : argus_attempt :=
  {| att_opened := Ret tt; att_data_init := region_primary;
     att_data_check := region_primary |}.

Definition attempt_not_running : argus_attempt :=
  {| att_opened := Raise OSError; att_data_init := region_stale;
     att_data_check := region_stale |}.

Definition attempt_inactive : argus_attempt :=
  {| att_opened := Ret tt; att_data_init := region_stale;
     att_data_check := region_stale |}.

(** A region whose only CPU temperature, at position 3, reads [v]. *)
Definition region_reading (v : spec_float) : ArgusMonitorData :=
  region ARGUS_SIGNATURE
    (fun ty => match ty with 6%nat => 3 | _ => 0 end)%N
    (fun ty => match ty with 6%nat => 1 | _ => 0 end)%N
    (fun i => match i with
              | 3%nat => sensor_of 6 "CPU" v
              | _ => no_sensor
              end).

(** An unforced tick at clock 1005 that reads 42.4 degrees. *)
Definition tick_flat : tick_env :=
  {| tick_data := region_reading f_42_4; tick_now := 1005;
     tick_written := Ret tt; tick_now_after := 1005 |}.

(** A tick past the deadline that reads a NaN. *)
Definition tick_nan_forced : tick_env :=
  {| tick_data := region_reading f_nan; tick_now := 2000;
     tick_written := Ret tt; tick_now_after := 2000 |}.

(** An unforced tick at clock 1002 that reads 43.5 degrees. *)
Definition tick_43_5 : tick_env :=
  {| tick_data := region_reading f_43_5; tick_now := 1002;
     tick_written := Ret tt; tick_now_after := 1002 |}.

(** Argus Monitor is not running at the first attempt, not yet active at the
    second, and ready from the third on. *)
Definition env_third_time : start_env :=
  {| start_attempts := fun attempt =>
       match attempt with
       | 0%nat => attempt_not_running
       | 1%nat => attempt_inactive
       | _ => attempt_ok
       end;
     start_display := Ret tt;
     start_data := region_primary |}.

(** Argus Monitor is never there. *)
Definition env_never : start_env :=
  {| start_attempts := fun _ => attempt_not_running;
     start_display := Ret tt;
     start_data := region_stale |}.

(** A primary category of five entries that starts at position 510: the
    last three are past the array. *)
Definition region_overrun : ArgusMonitorData :=
  region ARGUS_SIGNATURE
    (fun ty => match ty with 6%nat => 510 | _ => 0 end)%N
    (fun ty => match ty with 6%nat => 5 | _ => 0 end)%N
    (fun _ => sensor_of 6 "CPU" f_42_0).

(** * Properties *)

(** ** Rounding *)

Example f_examples_valid :
  forallb (valid_binary 53 1024)
    [f_150; f_neg10; f_42_0; f_42_4; f_42_5; f_42_6; f_43_5; f_inf; f_nan] = true.
Proof. vm_compute. reflexivity. Qed.

Example py_round_examples :
  py_round f_150 = Ret 150 /\ py_round f_neg10 = Ret (-10) /\
  py_round f_42_4 = Ret 42 /\ py_round f_42_6 = Ret 43 /\
  py_round f_42_5 = Ret 42 /\ py_round f_43_5 = Ret 44.
Proof. vm_compute. repeat split. Qed.

Lemma round_half_even_near (n : Z) (d : positive) :
  2 * Z.abs (n - round_half_even n d * Z.pos d) <= Z.pos d.
Proof.
  unfold round_half_even.
  pose proof (Z.div_mod n (Z.pos d) ltac:(lia)) as Hdm.
  pose proof (Z.mod_pos_bound n (Z.pos d) ltac:(lia)) as Hb.
  destruct (2 * (n mod Z.pos d) ?= Z.pos d) eqn:Hc;
    [apply Z.compare_eq in Hc | rewrite Z.compare_lt_iff in Hc
    | rewrite Z.compare_gt_iff in Hc].
  - destruct (Z.even (n / Z.pos d)); lia.
  - lia.
  - lia.
Qed.

Lemma round_half_even_tie (n k : Z) (d : positive) :
  2 * n = (2 * k + 1) * Z.pos d ->
  round_half_even n d = if Z.even k then k else k + 1.
Proof.
  intros Hn. unfold round_half_even.
  assert (Hx : 0 <= n - k * Z.pos d < Z.pos d) by lia.
  assert (Hq : n / Z.pos d = k).
  { symmetry. apply (Z.div_unique n (Z.pos d) k (n - k * Z.pos d)); lia. }
  assert (Hr : n mod Z.pos d = n - k * Z.pos d).
  { symmetry. apply (Z.mod_unique n (Z.pos d) k (n - k * Z.pos d)); lia. }
  rewrite Hq, Hr.
  replace (2 * (n - k * Z.pos d) ?= Z.pos d) with Eq; [reflexivity|].
  symmetry. apply Z.compare_eq_iff. lia.
Qed.

Lemma Qabs_sub_Z_le_half (n r : Z) (d : positive) :
  2 * Z.abs (n - r * Z.pos d) <= Z.pos d ->
  (Qabs ((n # d) - inject_Z r) <= 1 # 2)%Q.
Proof.
  intros H. unfold Qle, Qabs, Qminus, Qplus, Qopp, inject_Z. cbn.
  replace (n * 1 + - r * Z.pos d) with (n - r * Z.pos d) by lia.
  lia.
Qed.

Lemma py_round_nearest (f : spec_float) (v : Q) :
  float_val f = Some v ->
  exists r, py_round f = Ret r /\ nearest_integer v r.
Proof.
  unfold nearest_integer, float_val, py_round.
  destruct f as [s | s | | s m [ | p | p]]; intros Hv;
    try discriminate; injection Hv as <-.
  - exists 0. split; [reflexivity|]. cbv. discriminate.
  - eexists. split; [reflexivity|].
    apply (Qabs_sub_Z_le_half _ _ 1). lia.
  - eexists. split; [reflexivity|].
    apply (Qabs_sub_Z_le_half _ _ 1). lia.
  - eexists. split; [reflexivity|].
    apply Qabs_sub_Z_le_half, round_half_even_near.
Qed.

Lemma py_round_half (f : spec_float) (v : Q) (k : Z) :
  float_val f = Some v ->
  (v == inject_Z k + (1 # 2))%Q ->
  py_round f = Ret (if Z.even k then k else k + 1).
Proof.
  unfold float_val, py_round.
  destruct f as [s | s | | s m [ | p | p]]; intros Hv;
    try discriminate; injection Hv as <-;
    unfold Qeq, Qplus, inject_Z; cbn [Qnum Qden]; intros Hk.
  - lia.
  - lia.
  - lia.
  - f_equal. apply round_half_even_tie. lia.
Qed.


(** ** Clamping *)

Lemma clamp_temp_spec (r : Z) : clamp_temp r = spec_clamp r.
Proof.
  unfold clamp_temp, spec_clamp, TEMP_MAX, TEMP_MIN.
  destruct (Z.gtb_spec r 99); [lia|].
  destruct (Z.ltb_spec r 0); lia.
Qed.

Lemma clamp_temp_range (r : Z) : 0 <= clamp_temp r <= 99.
Proof. rewrite clamp_temp_spec. unfold spec_clamp. lia. Qed.

Lemma rounded_temp_range (raw : spec_float) (t : Z) :
  rounded_temp raw = Ret t -> 0 <= t <= 99.
Proof.
  unfold rounded_temp. destruct (py_round raw) as [r | e]; cbn; [|discriminate].
  intros [= <-]. apply clamp_temp_range.
Qed.

Lemma rounded_temp_finite (raw : spec_float) (v : Q) :
  float_val raw = Some v ->
  exists r, py_round raw = Ret r /\ nearest_integer v r /\
            rounded_temp raw = Ret (spec_clamp r).
Proof.
  intros Hv. destruct (py_round_nearest raw v Hv) as (r & Hr & Hn).
  exists r. repeat split; trivial.
  unfold rounded_temp. rewrite Hr. cbn. now rewrite clamp_temp_spec.
Qed.

(** ** The output report *)

Lemma packet_shape_init : packet_shape (packet CPUDisplayService_init).
Proof.
  repeat split; try reflexivity.
  - exists 0. split; [reflexivity | lia].
  - intros i Hi.
    change (packet CPUDisplayService_init) with (0 :: 16 :: replicate 63 0).
    do 2 (destruct i as [|i]; [lia|]).
    apply lookup_replicate_2. lia.
Qed.

Lemma packet_shape_insert (p : list Z) (t : Z) :
  packet_shape p -> 0 <= t <= 99 -> packet_shape (<[2%nat := t]> p).
Proof.
  intros (Hlen & H0 & H1 & _ & Hrest) Ht. repeat split.
  - now rewrite length_insert.
  - now rewrite list_lookup_insert_ne.
  - now rewrite list_lookup_insert_ne.
  - exists t. split; [|exact Ht]. apply list_lookup_insert_eq. lia.
  - intros i Hi. rewrite list_lookup_insert_ne by lia. now apply Hrest.
Qed.

Lemma bytearray_setitem_ok (b : list Z) (i : nat) (v : Z) :
  (i < length b)%nat -> 0 <= v < 256 ->
  bytearray_setitem b i v = Ret (<[i := v]> b).
Proof.
  intros Hi Hv. unfold bytearray_setitem.
  destruct (Nat.ltb_spec i (length b)); [|lia]. cbn.
  destruct (Z.leb_spec 0 v); [|lia].
  destruct (Z.ltb_spec v 256); [|lia]. reflexivity.
Qed.

Lemma bytearray_setitem_ret (b b' : list Z) (i : nat) (v : Z) :
  bytearray_setitem b i v = Ret b' -> b' = <[i := v]> b /\ (i < length b)%nat.
Proof.
  unfold bytearray_setitem.
  destruct (Nat.ltb_spec i (length b)); cbn; [|discriminate].
  destruct (negb _); [discriminate|]. intros [= <-]. auto.
Qed.

(** ** [write_temp], case by case *)

Lemma write_temp_cases (self : CPUDisplayService) (dev : hid_device)
    (raw : spec_float) (t : Z) (force : bool) (written : result unit) (now : Q) :
  device self = Some dev ->
  (2 < length (packet self))%nat ->
  rounded_temp raw = Ret t ->
  write_temp self raw force written now =
    if negb force && (t =? last_temp self) then (true, self, [])
    else
      match written with
      | Raise _ =>
          (false, after_write self t (next_mandatory_write_time self),
           [EvDeviceWrite (<[2%nat := t]> (packet self))])
      | Ret _ =>
          (true, after_write self t (now + MANDATORY_UPDATE_INTERVAL)%Q,
           [EvDeviceWrite (<[2%nat := t]> (packet self))])
      end.
Proof.
  intros Hdev Hlen Ht. unfold write_temp, after_write. rewrite Hdev, Ht.
  destruct (negb force && (t =? last_temp self)); [reflexivity|].
  pose proof (rounded_temp_range raw t Ht).
  rewrite bytearray_setitem_ok by lia.
  destruct written; reflexivity.
Qed.

(** Whatever its arguments, [write_temp] hands the device at most one
    report, and that report has the value of the call at byte 2. *)
Lemma write_temp_events (self : CPUDisplayService) (raw : spec_float)
    (force : bool) (written : result unit) (now : Q) :
  device_writes (write_temp self raw force written now).2 = [] \/
  exists t, rounded_temp raw = Ret t /\
    (write_temp self raw force written now).2 =
      [EvDeviceWrite (<[2%nat := t]> (packet self))] /\
    packet (write_temp self raw force written now).1.2
      = <[2%nat := t]> (packet self) /\
    (2 < length (packet self))%nat.
Proof.
  unfold write_temp.
  destruct (device self) as [dev|]; [|now left].
  destruct (rounded_temp raw) as [t|e] eqn:Ht; [|now left].
  destruct (negb force && (t =? last_temp self)); [now left|].
  destruct (bytearray_setitem (packet self) 2 t) as [p1|e] eqn:Hset; [|now left].
  apply bytearray_setitem_ret in Hset as [-> Hlen].
  right. exists t. destruct written; cbn; auto.
Qed.

Lemma write_temp_packet (self : CPUDisplayService) (raw : spec_float)
    (force : bool) (written : result unit) (now : Q) :
  packet_shape (packet self) ->
  packet_shape (packet (write_temp self raw force written now).1.2) /\
  Forall packet_shape (device_writes (write_temp self raw force written now).2).
Proof.
  intros Hp.
  destruct (write_temp_events self raw force written now)
    as [Hnone | (t & Ht & Hev & Hpk & _)].
  - split; [|rewrite Hnone; constructor].
    unfold write_temp in *.
    destruct (device self); [|exact Hp].
    destruct (rounded_temp raw) as [t|]; [|exact Hp].
    destruct (negb force && (t =? last_temp self)); [exact Hp|].
    destruct (bytearray_setitem (packet self) 2 t) as [p1|]; [|exact Hp].
    destruct written; discriminate Hnone.
  - pose proof (rounded_temp_range raw t Ht).
    rewrite Hpk, Hev. cbn. split; [|constructor; [|constructor]];
      now apply packet_shape_insert.
Qed.

(** ** Invariants of the service *)

(** Case analysis on the condition of the first [if] of the goal. *)
Ltac case_if :=
  match goal with
  | |- context [if ?c then _ else _] => destruct c eqn:?
  end.

Lemma connect_argus_fields (self : CPUDisplayService) (att : argus_attempt) :
  packet (connect_argus self att).2 = packet self /\
  device (connect_argus self att).2 = device self /\
  last_temp (connect_argus self att).2 = last_temp self /\
  next_mandatory_write_time (connect_argus self att).2
    = next_mandatory_write_time self.
Proof.
  unfold connect_argus.
  destruct (ArgusMonitorAPI_init _ _); cbn; auto.
Qed.

Lemma connect_argus_ok (self : CPUDisplayService) (att : argus_attempt) :
  (connect_argus self att).1 = attempt_succeeds att.
Proof.
  unfold connect_argus, attempt_succeeds, ArgusMonitorAPI_init.
  destruct (att_opened att); reflexivity.
Qed.

Lemma connect_display_fields (self : CPUDisplayService) (r : result unit) :
  packet (connect_display self r).2 = packet self /\
  argus (connect_display self r).2 = argus self /\
  last_temp (connect_display self r).2 = last_temp self.
Proof. destruct r; cbn; auto. Qed.

Lemma reachable_packet_shape (self : CPUDisplayService) :
  reachable self -> packet_shape (packet self).
Proof.
  induction 1 as [ | self att _ IH | self r _ IH | self raw force written now _ IH].
  - apply packet_shape_init.
  - now rewrite (proj1 (connect_argus_fields self att)).
  - now rewrite (proj1 (connect_display_fields self r)).
  - now apply write_temp_packet.
Qed.

(** [last_temp] is -1 until a report is handed to the device, and from then
    on the temperature in the last report handed over. *)
Lemma reachable_last_temp (self : CPUDisplayService) :
  reachable self ->
  last_temp self = -1 \/ packet self !! 2%nat = Some (last_temp self).
Proof.
  induction 1 as [ | self att _ IH | self r _ IH | self raw force written now Hr IH].
  - now left.
  - destruct (connect_argus_fields self att) as (-> & _ & -> & _). exact IH.
  - destruct (connect_display_fields self r) as (-> & _ & ->). exact IH.
  - apply reachable_packet_shape in Hr as (Hlen & _).
    unfold write_temp.
    destruct (device self); [|exact IH].
    destruct (rounded_temp raw) as [t|] eqn:Ht; [|exact IH].
    destruct (negb force && (t =? last_temp self)); [exact IH|].
    pose proof (rounded_temp_range raw t Ht).
    rewrite bytearray_setitem_ok by lia.
    right. destruct written; cbn; apply list_lookup_insert_eq; lia.
Qed.

Lemma running_packet_length (self : CPUDisplayService) :
  running self -> (2 < length (packet self))%nat.
Proof.
  intros (Hr & _). apply reachable_packet_shape in Hr as (Hlen & _). lia.
Qed.

Lemma service_showing_42_running : running service_showing_42.
Proof.
  split_and!; [|eexists; reflexivity|reflexivity].
  change service_showing_42 with
    (write_temp
       (connect_display (connect_argus CPUDisplayService_init attempt_ok).2
          (Ret tt)).2
       f_42_0 true (Ret tt) 1000).1.2.
  repeat constructor.
Qed.

Lemma connect_loop_inv (env : nat -> argus_attempt) (attempts : list nat)
    (self : CPUDisplayService) :
  packet (connect_loop self attempts env).1.2 = packet self /\
  device_writes (connect_loop self attempts env).2 = [].
Proof.
  revert self. induction attempts as [|attempt rest IH]; intros self; cbn.
  - auto.
  - pose proof (connect_argus_fields self (env attempt)) as (Hp & _).
    destruct (connect_argus self (env attempt)) as [ok self1]. cbn in Hp.
    destruct ok; cbn; [auto|].
    case_if; cbn; [|auto].
    specialize (IH self1).
    destruct (connect_loop self1 rest env) as [[x self2] evs]. cbn in *.
    destruct IH as [-> ->]. auto.
Qed.

Lemma start_inv (self : CPUDisplayService) (env : start_env) :
  packet (start self env).1.2 = packet self /\
  device_writes (start self env).2 = [].
Proof.
  unfold start.
  pose proof (connect_loop_inv (start_attempts env)
                (seq 0 ARGUS_CONNECTION_MAX_RETRIES) self) as [Hp Hw].
  destruct (connect_loop self _ _) as [[x self1] evs]. cbn in Hp, Hw.
  assert (Hev : device_writes (evs ++ [EvOpenDisplay]) = []).
  { unfold device_writes in *. now rewrite omap_app, Hw. }
  pose proof (connect_display_fields self1 (start_display env)) as (Hp2 & _).
  destruct x; cbn; auto;
    destruct (connect_display self1 (start_display env)) as [ok self2];
    cbn in Hp2; rewrite <- Hp, <- Hp2;
    (destruct ok; cbn; [|auto]);
    (destruct (argus self2); [|auto]);
    destruct (get_all_cpu_temps (start_data env)); auto.
Qed.

Lemma update_tick_inv (self self1 : CPUDisplayService) (env : tick_env)
    (evs : list event) :
  packet_shape (packet self) ->
  update_tick self env = Ret (self1, evs) ->
  packet_shape (packet self1) /\ Forall packet_shape (device_writes evs).
Proof.
  intros Hp. unfold update_tick.
  destruct (argus self) as [api|]; [|discriminate].
  destruct (get_cpu_temp_raw api (tick_data env)) as [[raw|]|e]; cbn;
    [ | intros [= <- <-]; split; [exact Hp | constructor] | discriminate].
  pose proof (write_temp_packet self raw (force_write self (tick_now env))
                (tick_written env) (tick_now_after env) Hp) as Hw.
  destruct (write_temp self raw _ _ _) as [[ok s] ev]. cbn in Hw.
  intros [= <- <-]. exact Hw.
Qed.

Lemma update_loop_inv (ticks : list tick_env) (self : CPUDisplayService) :
  packet_shape (packet self) ->
  Forall packet_shape (device_writes (update_loop self ticks).2).
Proof.
  revert self. induction ticks as [|env rest IH]; intros self Hp; cbn.
  - constructor.
  - destruct (update_tick self env) as [[self1 evs]|e] eqn:Ht; cbn;
      [|constructor].
    apply (update_tick_inv _ _ _ _ Hp) in Ht as [Hp1 Hev].
    specialize (IH self1 Hp1).
    destruct (update_loop self1 rest) as [[r self2] evs2]. cbn in *.
    unfold device_writes in *. rewrite omap_app. now apply Forall_app_2.
Qed.


(** ** Rounding and clamping in [write_temp] *)


Lemma no_device_write_not_in (evs : list event) (p : list Z) :
  device_writes evs = [] -> ~ In (EvDeviceWrite p) evs.
Proof.
  induction evs as [|e l IH]; intros Hnone Hin; [destruct Hin|].
  destruct Hin as [-> | Hin]; [discriminate Hnone|].
  apply IH; [|exact Hin]. destruct e; cbn in Hnone; trivial; discriminate.
Qed.

Lemma write_temp_report_value (self : CPUDisplayService) (raw : spec_float)
    (force : bool) (written : result unit) (now : Q) (t : Z) (p : list Z) :
  rounded_temp raw = Ret t ->
  In (EvDeviceWrite p) (write_temp self raw force written now).2 ->
  p !! 2%nat = Some t.
Proof.
  intros Ht Hin.
  destruct (write_temp_events self raw force written now)
    as [Hnone | (t' & Ht' & Hev & _ & Hlen)].
  - exfalso. revert Hnone Hin. apply no_device_write_not_in.
  - rewrite Hev in Hin. destruct Hin as [[= <-] | []].
    rewrite Ht in Ht'. injection Ht' as <-.
    now apply list_lookup_insert_eq.
Qed.

(** ** The reports handed to the device *)

(** C7. Every report handed to the device over the life of the service
    ([start], then the iterations of the update loop) is 65 bytes long, with
    byte 0 = 0x00, byte 1 = 0x10, byte 2 a temperature between 0 and 99, and
    zeros in bytes 3 to 64; and the byte 2 of a report that a call of
    [write_temp] hands over is the clamped temperature of that call. *)
Theorem every_report_has_the_fixed_shape
    (env : start_env) (ticks : list tick_env) :
  Forall packet_shape (device_writes (service_run env ticks)) /\
  forall self raw force written now p,
    In (EvDeviceWrite p) (write_temp self raw force written now).2 ->
    exists t, rounded_temp raw = Ret t /\ p !! 2%nat = Some t /\ 0 <= t <= 99.
Proof.
  split.
  - unfold service_run.
    pose proof (start_inv CPUDisplayService_init env) as [Hp Hw].
    destruct (start CPUDisplayService_init env) as [[r self1] evs].
    cbn [fst snd] in Hp, Hw.
    destruct r as [[|]|e]; try (rewrite Hw; constructor).
    assert (Hs : packet_shape (packet self1))
      by (rewrite Hp; apply packet_shape_init).
    pose proof (update_loop_inv ticks self1 Hs) as Hl.
    destruct (update_loop self1 ticks) as [[r2 self2] evs2]. cbn [fst snd] in Hl.
    unfold device_writes in *. rewrite omap_app, Hw. exact Hl.
  - intros self raw force written now p Hin.
    destruct (write_temp_events self raw force written now)
      as [Hnone | (t & Ht & _)].
    + now apply no_device_write_not_in in Hin.
    + exists t. split; [exact Ht|].
      split; [|now apply (rounded_temp_range raw)].
      now apply (write_temp_report_value self raw force written now).
Qed.

Lemma every_report_has_the_fixed_shape_witness :
  Forall packet_shape
    (device_writes (service_run env_third_time [tick_flat; tick_43_5])) /\
  exists t,
    rounded_temp f_150 = Ret t /\
    <[2%nat := 99]> (packet service_showing_42) !! 2%nat = Some t /\
    0 <= t <= 99.
Proof.
  split.
  - apply (every_report_has_the_fixed_shape env_third_time [tick_flat; tick_43_5]).
  - apply (proj2 (every_report_has_the_fixed_shape env_third_time [])
             service_showing_42 f_150 false (Ret tt) 1001%Q).
    left. reflexivity.
Defined.

(** ** The value written *)



Example write_temp_clamps_150_and_minus_10 :
  rounded_temp f_150 = Ret 99 /\ rounded_temp f_neg10 = Ret 0 /\
  (write_temp service_showing_42 f_150 false (Ret tt) 1001).2
    = [EvDeviceWrite (<[2%nat := 99]> (packet CPUDisplayService_init))] /\
  (write_temp service_showing_42 f_neg10 false (Ret tt) 1001).2
    = [EvDeviceWrite (packet CPUDisplayService_init)].
Proof. vm_compute. repeat split. Qed.

(** C9. A raw value exactly halfway between the integers [k] and [k + 1] is
    rounded to the even one of the two, and that is what [write_temp] sends:
    in the Running state a forced call hands the device one report whose
    byte 2 is the even neighbour clamped to [0, 99], and so does every report
    of an unforced call. *)
Theorem write_temp_rounds_half_to_even (self : CPUDisplayService)
    (raw : spec_float) (v : Q) (k : Z) (written : result unit) (now : Q) :
  running self ->
  float_val raw = Some v ->
  (v == inject_Z k + (1 # 2))%Q ->
  let even_neighbour := if Z.even k then k else k + 1 in
  py_round raw = Ret even_neighbour /\
  rounded_temp raw = Ret (spec_clamp even_neighbour) /\
  (write_temp self raw true written now).2
    = [EvDeviceWrite (<[2%nat := spec_clamp even_neighbour]> (packet self))] /\
  forall force p,
    In (EvDeviceWrite p) (write_temp self raw force written now).2 ->
    p !! 2%nat = Some (spec_clamp even_neighbour).
Proof.
  intros Hrun Hv Hk even_neighbour.
  pose proof (py_round_half raw v k Hv Hk) as Hr. fold even_neighbour in Hr.
  assert (Ht : rounded_temp raw = Ret (spec_clamp even_neighbour)).
  { unfold rounded_temp. rewrite Hr. cbn. now rewrite clamp_temp_spec. }
  split_and!; trivial.
  - destruct Hrun as (Hreach & _ & Hd).
    apply reachable_packet_shape in Hreach as (Hlen & _).
    rewrite (write_temp_cases self _ raw (spec_clamp even_neighbour) true
               written now Hd); trivial; [|lia].
    now destruct written.
  - intros force p. now apply write_temp_report_value.
Qed.

Lemma write_temp_rounds_half_to_even_witness :
  (py_round f_42_5 = Ret 42 /\
   (write_temp service_showing_42 f_42_5 true (Ret tt) 1020).2
     = [EvDeviceWrite (<[2%nat := 42]> (packet service_showing_42))]) /\
  (py_round f_43_5 = Ret 44 /\
   (write_temp service_showing_42 f_43_5 true (Ret tt) 1020).2
     = [EvDeviceWrite (<[2%nat := 44]> (packet service_showing_42))]).
Proof.
  split.
  - destruct (write_temp_rounds_half_to_even service_showing_42 f_42_5
                (85 * 2 ^ 46 # 2 ^ 47) 42 (Ret tt) 1020
                service_showing_42_running eq_refl eq_refl)
      as (Hr & _ & Hw & _).
    split; [exact Hr | exact Hw].
  - destruct (write_temp_rounds_half_to_even service_showing_42 f_43_5
                (87 * 2 ^ 46 # 2 ^ 47) 43 (Ret tt) 1020
                service_showing_42_running eq_refl eq_refl)
      as (Hr & _ & Hw & _).
    split; [exact Hr | exact Hw].
Defined.

(** ** Debounce and mandatory refresh *)

Lemma force_write_spec (self : CPUDisplayService) (now : Q) :
  force_write self now = true <-> (next_mandatory_write_time self <= now)%Q.
Proof. apply Qle_bool_iff. Qed.

Lemma write_temp_connections (self : CPUDisplayService) (raw : spec_float)
    (force : bool) (written : result unit) (now : Q) :
  argus (write_temp self raw force written now).1.2 = argus self /\
  device (write_temp self raw force written now).1.2 = device self.
Proof.
  unfold write_temp.
  destruct (device self) eqn:Hd; [|auto].
  destruct (rounded_temp raw) as [t|]; [|auto].
  destruct (negb force && (t =? last_temp self)); [auto|].
  destruct (bytearray_setitem (packet self) 2 t); [|cbn; auto].
  destruct written; cbn; auto.
Qed.

Lemma running_write_temp (self : CPUDisplayService) (raw : spec_float)
    (force : bool) (written : result unit) (now : Q) :
  running self -> running (write_temp self raw force written now).1.2.
Proof.
  intros (Hr & Ha & Hd).
  destruct (write_temp_connections self raw force written now) as [Ea Ed].
  split; [now apply reach_write_temp|]. now rewrite Ea, Ed.
Qed.

(** An iteration of the loop in the Running state with a reading that
    rounds to [t]. *)
Lemma update_tick_running (self : CPUDisplayService) (api : ArgusMonitorAPI)
    (env : tick_env) (raw : spec_float) (t : Z) :
  running self ->
  argus self = Some api ->
  get_cpu_temp_raw api (tick_data env) = Ret (Some raw) ->
  rounded_temp raw = Ret t ->
  update_tick self env =
    if negb (force_write self (tick_now env)) && (t =? last_temp self)
    then Ret (self, [])
    else
      Ret (after_write self t
             match tick_written env with
             | Ret _ => (tick_now_after env + MANDATORY_UPDATE_INTERVAL)%Q
             | Raise _ => next_mandatory_write_time self
             end,
           [EvDeviceWrite (<[2%nat := t]> (packet self))]).
Proof.
  intros Hrun Ha Hraw Ht. unfold update_tick. rewrite Ha, Hraw. cbn.
  destruct Hrun as (Hr & _ & Hd).
  rewrite (write_temp_cases self _ raw t _ _ _ Hd) ; trivial.
  - case_if; [reflexivity|]. destruct (tick_written env); reflexivity.
  - apply reachable_packet_shape in Hr as (Hlen & _). lia.
Qed.

Lemma service_showing_42_last_written :
  last_written service_showing_42 (Some 42).
Proof.
  exact (written_write_temp
           (connect_display (connect_argus CPUDisplayService_init attempt_ok).2
              (Ret tt)).2
           f_42_0 true (Ret tt) 1000%Q None
           (written_connect_display _ (Ret tt) None
              (written_connect_argus _ attempt_ok None written_init))).
Qed.

(** C1 (as amended). In the Running state, on a tick whose raw temperature
    is available and finite, with clamped value [t], taken when [last_temp]
    holds the last written value [w] (no device write has failed since the
    last that succeeded): the device write is skipped exactly when the force
    flag is false and [t] is the last written value; the force flag is true
    exactly when the clock has reached [next_mandatory_write_time], which a
    successful write sets to 15 seconds after the clock read that follows it
    and nothing else moves; a forced tick writes whatever the value; and
    when the tick's own write, if any, succeeded, [t] is the last written
    value and a following tick with the same clamped value and the flag
    false writes nothing.  What a tick does after a failed write is not
    stated. *)
Theorem tick_skips_iff_unforced_and_unchanged (self : CPUDisplayService)
    (api : ArgusMonitorAPI) (env : tick_env) (raw : spec_float) (v : Q)
    (w : option Z) :
  running self ->
  last_written self w ->
  last_temp_was_written self w ->
  argus self = Some api ->
  get_cpu_temp_raw api (tick_data env) = Ret (Some raw) ->
  float_val raw = Some v ->
  exists t self1 evs,
    rounded_temp raw = Ret t /\
    update_tick self env = Ret (self1, evs) /\
    (device_writes evs = [] <->
       force_write self (tick_now env) = false /\ w = Some t) /\
    (force_write self (tick_now env) = true <->
       (next_mandatory_write_time self <= tick_now env)%Q) /\
    next_mandatory_write_time self1 =
      match device_writes evs, tick_written env with
      | _ :: _, Ret _ => (tick_now_after env + 15)%Q
      | _, _ => next_mandatory_write_time self
      end /\
    (force_write self (tick_now env) = true ->
       device_writes evs = [<[2%nat := t]> (packet self)]) /\
    running self1 /\
    (device_writes evs = [] \/ tick_written env = Ret tt ->
     last_written self1 (Some t) /\
     last_temp_was_written self1 (Some t) /\
     forall env2 raw2,
       get_cpu_temp_raw api (tick_data env2) = Ret (Some raw2) ->
       rounded_temp raw2 = Ret t ->
       force_write self1 (tick_now env2) = false ->
       update_tick self1 env2 = Ret (self1, [])).
Proof.
  intros Hrun Hw Hsync Ha Hraw Hv.
  destruct (rounded_temp_finite raw v Hv) as (r & _ & _ & Ht).
  set (t := spec_clamp r) in *.
  pose proof (rounded_temp_range raw t Ht) as Hrange.
  pose proof (update_tick_running self api env raw t Hrun Ha Hraw Ht) as Htick.
  pose proof (running_write_temp self raw (force_write self (tick_now env))
                (tick_written env) (tick_now_after env) Hrun) as Hrun1.
  assert (Hd : device self = Some {| opened := true |}) by apply Hrun.
  assert (Hlen : (2 < length (packet self))%nat).
  { destruct Hrun as (Hr & _). apply reachable_packet_shape in Hr as (Hlen & _). lia. }
  rewrite (write_temp_cases self _ raw t _ _ _ Hd Hlen Ht) in Hrun1.
  assert (Hsame : w = Some t <-> t = last_temp self).
  { unfold last_temp_was_written in Hsync. rewrite Hsync.
    destruct w as [value|]; split; intros H; try congruence; lia. }
  assert (Hsecond : forall s, running s -> argus s = Some api -> last_temp s = t ->
            forall env2 raw2,
              get_cpu_temp_raw api (tick_data env2) = Ret (Some raw2) ->
              rounded_temp raw2 = Ret t ->
              force_write s (tick_now env2) = false ->
              update_tick s env2 = Ret (s, [])).
  { intros s Hs Has Hlast env2 raw2 Hraw2 Ht2 Hf.
    rewrite (update_tick_running s api env2 raw2 t Hs Has Hraw2 Ht2).
    rewrite Hf, Hlast, Z.eqb_refl. reflexivity. }
  destruct (negb (force_write self (tick_now env)) && (t =? last_temp self))
    eqn:Hskip.
  - apply andb_prop in Hskip as [Hf Heq].
    apply negb_true_iff in Hf. apply Z.eqb_eq in Heq.
    apply Hsame in Heq as Hwt.
    exists t, self, []. split_and!.
    + exact Ht.
    + exact Htick.
    + split; auto.
    + apply force_write_spec.
    + reflexivity.
    + rewrite Hf. discriminate.
    + exact Hrun.
    + intros _. split_and!.
      * now rewrite <- Hwt.
      * now symmetry.
      * apply Hsecond; [exact Hrun | exact Ha | now symmetry].
  - exists t,
      (after_write self t
         match tick_written env with
         | Ret _ => (tick_now_after env + MANDATORY_UPDATE_INTERVAL)%Q
         | Raise _ => next_mandatory_write_time self
         end),
      [EvDeviceWrite (<[2%nat := t]> (packet self))].
    split_and!.
    + exact Ht.
    + exact Htick.
    + split; [discriminate|]. intros [Hf Hwt].
      apply Hsame in Hwt. rewrite Hf, Hwt, Z.eqb_refl in Hskip. discriminate.
    + apply force_write_spec.
    + cbn. destruct (tick_written env); reflexivity.
    + reflexivity.
    + destruct (tick_written env); exact Hrun1.
    + intros [Hnil | Hok]; [discriminate Hnil|].
      rewrite Hok in Hrun1 |- *.
      pose proof (written_write_temp self raw (force_write self (tick_now env))
                    (Ret tt) (tick_now_after env) w Hw) as Hw1.
      assert (Hcall : write_temp self raw (force_write self (tick_now env))
                        (Ret tt) (tick_now_after env)
                      = (true,
                         after_write self t
                           (tick_now_after env + MANDATORY_UPDATE_INTERVAL)%Q,
                         [EvDeviceWrite (<[2%nat := t]> (packet self))])).
      { rewrite (write_temp_cases self _ raw t _ _ _ Hd Hlen Ht).
        now rewrite Hskip. }
      rewrite !Hcall in Hw1.
      cbn [fst snd device_writes omap list_omap] in Hw1.
      rewrite list_lookup_insert_eq in Hw1 by exact Hlen.
      split_and!; [exact Hw1 | reflexivity |].
      apply Hsecond; [exact Hrun1 | exact Ha | reflexivity].
Qed.

Lemma tick_skips_iff_unforced_and_unchanged_witness :
  exists self1 evs,
    update_tick service_showing_42 tick_flat = Ret (self1, evs) /\
    (device_writes evs = [] <->
       force_write service_showing_42 (tick_now tick_flat) = false /\
       Some 42 = Some 42).
Proof.
  destruct (tick_skips_iff_unforced_and_unchanged service_showing_42
              (_cache_sensor_info api_unpopulated region_primary)
              tick_flat f_42_4 (5967269506265907 # 140737488355328) (Some 42)
              service_showing_42_running service_showing_42_last_written
              eq_refl eq_refl eq_refl eq_refl)
    as (t & self1 & evs & Ht & Htick & Hskip & _).
  injection Ht as <-. exists self1, evs. split; assumption.
Defined.

(** The claim as stated fails on a reading that is not a number: the tick is
    past the deadline, and nothing is written. *)
Lemma forced_tick_with_nan_writes_nothing :
  running service_showing_42 /\
  get_cpu_temp_raw (_cache_sensor_info api_unpopulated region_primary)
    (tick_data tick_nan_forced) = Ret (Some f_nan) /\
  force_write service_showing_42 (tick_now tick_nan_forced) = true /\
  update_tick service_showing_42 tick_nan_forced = Ret (service_showing_42, []).
Proof.
  split; [exact service_showing_42_running|]. repeat split.
Qed.

(** ** A failed device write *)

(** C4 (the code at the failing input). The display shows 42; an unforced
    call with 43.5 degrees meets a device write that raises [IOError].  The
    call returns [False] and leaves the deadline alone, but [last_temp] is
    already 44, so that the next unforced tick with the same reading is
    skipped although the device never took the value. *)
Theorem failed_write_still_updates_last_temp :
  (write_temp service_showing_42 f_43_5 false (Raise IOError) 1001).1.1 = false /\
  next_mandatory_write_time
    (write_temp service_showing_42 f_43_5 false (Raise IOError) 1001).1.2
    = next_mandatory_write_time service_showing_42 /\
  last_temp service_showing_42 = 42 /\
  last_temp (write_temp service_showing_42 f_43_5 false (Raise IOError) 1001).1.2
    = 44 /\
  update_tick
    (write_temp service_showing_42 f_43_5 false (Raise IOError) 1001).1.2
    tick_43_5
    = Ret ((write_temp service_showing_42 f_43_5 false (Raise IOError) 1001).1.2,
           []).
Proof. repeat split. Qed.

(** ** Reconnecting the display *)

(** C8 (as amended). A successful [connect_display] puts the deadline back
    to its initial value 0.0 and leaves [last_temp] as it was; the first
    [write_temp] of the update loop after it, at any clock reading from 0 on,
    is forced, and so writes whatever value was written before. *)
Theorem reconnect_resets_deadline_and_forces_write (self : CPUDisplayService)
    (raw : spec_float) (t : Z) (now : Q) (written : result unit) (now_after : Q) :
  reachable self ->
  rounded_temp raw = Ret t ->
  (0 <= now)%Q ->
  let self1 := (connect_display self (Ret tt)).2 in
  (connect_display self (Ret tt)).1 = true /\
  next_mandatory_write_time self1
    = next_mandatory_write_time CPUDisplayService_init /\
  last_temp self1 = last_temp self /\
  force_write self1 now = true /\
  (write_temp self1 raw (force_write self1 now) written now_after).2
    = [EvDeviceWrite (<[2%nat := t]> (packet self))].
Proof.
  intros Hr Ht Hnow self1.
  assert (Hf : force_write self1 now = true) by now apply force_write_spec.
  split_and!; try reflexivity; [exact Hf|].
  rewrite Hf.
  rewrite (write_temp_cases self1 {| opened := true |} raw t true written
             now_after eq_refl); [destruct written; reflexivity | | exact Ht].
  apply reachable_packet_shape in Hr as (Hlen & _). cbn. lia.
Qed.

Lemma reconnect_resets_deadline_and_forces_write_witness :
  last_temp (connect_display service_showing_42 (Ret tt)).2 = 42 /\
  (write_temp (connect_display service_showing_42 (Ret tt)).2 f_42_0
     (force_write (connect_display service_showing_42 (Ret tt)).2 1020)
     (Ret tt) 1020).2
    = [EvDeviceWrite (<[2%nat := 42]> (packet service_showing_42))].
Proof.
  destruct (reconnect_resets_deadline_and_forces_write service_showing_42
              f_42_0 42 1020 (Ret tt) 1020)
    as (_ & _ & Hlast & _ & Hw).
  - apply service_showing_42_running.
  - reflexivity.
  - discriminate.
  - split; [exact Hlast | exact Hw].
Defined.

(** The claim as stated fails: after a successful reconnection [last_temp]
    is the value written over the previous connection, not the initial -1. *)
Lemma reconnect_keeps_last_temp :
  (connect_display service_showing_42 (Ret tt)).1 = true /\
  last_temp (connect_display service_showing_42 (Ret tt)).2 = 42 /\
  last_temp CPUDisplayService_init = -1.
Proof. repeat split. Qed.

(** ** The reader of the shared region *)

Lemma get_cpu_temp_raw_stale (self : ArgusMonitorAPI) (data : ArgusMonitorData) :
  Signature data <> ARGUS_SIGNATURE -> get_cpu_temp_raw self data = Ret None.
Proof.
  intros Hsig. unfold get_cpu_temp_raw.
  apply N.eqb_neq in Hsig. rewrite Hsig.
  now destruct (count_is_zero _).
Qed.

Lemma get_cpu_temp_raw_zero_count (self : ArgusMonitorAPI)
    (data : ArgusMonitorData) :
  cpu_temp_count self = Some 0%N -> get_cpu_temp_raw self data = Ret None.
Proof. unfold get_cpu_temp_raw. now intros ->. Qed.

Lemma get_cpu_temp_raw_value (self : ArgusMonitorAPI) (data : ArgusMonitorData)
    (offset count : N) :
  Signature data = ARGUS_SIGNATURE ->
  cpu_temp_offset self = Some offset ->
  cpu_temp_count self = Some count ->
  count <> 0%N ->
  (N.to_nat offset < MAX_SENSOR_COUNT)%nat ->
  get_cpu_temp_raw self data
    = Ret (Some (Value (SensorData data (N.to_nat offset)))).
Proof.
  unfold get_cpu_temp_raw. intros Hsig -> -> Hc Hoff. cbn.
  apply N.eqb_neq in Hc. rewrite Hc.
  apply N.eqb_eq in Hsig. rewrite Hsig. cbn.
  unfold carray_get. apply Nat.ltb_lt in Hoff. now rewrite Hoff.
Qed.

(** The gating of [get_cpu_temp_raw]: it returns [None] whenever the
    signature is not the magic constant, whatever the other fields and the
    cache hold, and whenever the cached count is zero; when the signature
    matches and the cache holds a non-zero count and an offset inside the
    sensor array, it returns the value of the record at that offset. *)
Lemma get_cpu_temp_raw_gating (self : ArgusMonitorAPI) (data : ArgusMonitorData) :
  (Signature data <> ARGUS_SIGNATURE -> get_cpu_temp_raw self data = Ret None) /\
  (cpu_temp_count self = Some 0%N -> get_cpu_temp_raw self data = Ret None) /\
  (forall offset count,
     Signature data = ARGUS_SIGNATURE ->
     cpu_temp_offset self = Some offset ->
     cpu_temp_count self = Some count ->
     count <> 0%N ->
     (N.to_nat offset < MAX_SENSOR_COUNT)%nat ->
     get_cpu_temp_raw self data
       = Ret (Some (Value (SensorData data (N.to_nat offset))))).
Proof.
  split_and!.
  - apply get_cpu_temp_raw_stale.
  - apply get_cpu_temp_raw_zero_count.
  - apply get_cpu_temp_raw_value.
Qed.

Lemma get_cpu_temp_raw_gating_witness :
  get_cpu_temp_raw (_cache_sensor_info api_unpopulated region_primary)
    region_stale = Ret None /\
  get_cpu_temp_raw (_cache_sensor_info api_unpopulated region_empty)
    region_primary = Ret None /\
  get_cpu_temp_raw (_cache_sensor_info api_unpopulated region_primary)
    region_primary = Ret (Some f_42_4).
Proof.
  split_and!.
  - apply (proj1 (get_cpu_temp_raw_gating _ region_stale)).
    vm_compute. discriminate.
  - apply (proj1 (proj2 (get_cpu_temp_raw_gating _ region_primary))).
    reflexivity.
  - apply (proj2 (proj2 (get_cpu_temp_raw_gating _ region_primary)) 3%N 2%N).
    + reflexivity.
    + reflexivity.
    + reflexivity.
    + discriminate.
    + unfold MAX_SENSOR_COUNT. simpl. lia.
Defined.

(** C3 (the code at the failing input). An [ArgusMonitorAPI] made while
    the signature was not Argus's keeps an unfilled cache: both attributes
    are [None], and the guard [cpu_temp_count == 0] does not hold for [None].
    Under a wrong signature the reading is still [None]; once the signature
    matches, [get_cpu_temp_raw] indexes the sensor array with [None] and
    raises [TypeError] where the reading should be unavailable. *)
Theorem get_cpu_temp_raw_unpopulated_type_error :
  ArgusMonitorAPI_init (Ret tt) region_stale = Ret api_unpopulated /\
  count_is_zero (cpu_temp_count api_unpopulated) = false /\
  get_cpu_temp_raw api_unpopulated region_stale = Ret None /\
  get_cpu_temp_raw api_unpopulated region_primary = Raise TypeError.
Proof. repeat split. Qed.

(** C5. When the region is active at connection time and the primary
    CPU-temperature category has no entry, the cache takes the offset and
    the count of the additional category, and the connection succeeds; when
    the additional category is empty too, every later [get_cpu_temp_raw]
    returns [None], whatever the region then holds. *)
Theorem connect_falls_back_to_additional (self : CPUDisplayService)
    (att : argus_attempt) :
  att_opened att = Ret tt ->
  is_active (att_data_init att) = true ->
  is_active (att_data_check att) = true ->
  SensorCount (att_data_init att) SENSOR_TYPE_CPU_TEMPERATURE = 0%N ->
  exists api,
    (connect_argus self att).1 = true /\
    argus (connect_argus self att).2 = Some api /\
    cpu_temp_offset api
      = Some (OffsetForSensorType (att_data_init att)
                SENSOR_TYPE_CPU_TEMPERATURE_ADDITIONAL) /\
    cpu_temp_count api
      = Some (SensorCount (att_data_init att)
                SENSOR_TYPE_CPU_TEMPERATURE_ADDITIONAL) /\
    (SensorCount (att_data_init att) SENSOR_TYPE_CPU_TEMPERATURE_ADDITIONAL = 0%N ->
     forall data, get_cpu_temp_raw api data = Ret None).
Proof.
  intros Hopen Hinit Hcheck Hzero.
  unfold connect_argus, ArgusMonitorAPI_init, _cache_sensor_info.
  unfold is_active in Hinit. rewrite Hopen, Hinit, Hzero. cbn.
  eexists. split_and!; try reflexivity; [exact Hcheck|].
  intros Hzero2 data. unfold get_cpu_temp_raw. cbn. now rewrite Hzero2.
Qed.

Lemma connect_falls_back_to_additional_witness :
  (exists api,
     (connect_argus CPUDisplayService_init
        {| att_opened := Ret tt; att_data_init := region_fallback;
           att_data_check := region_fallback |}).1 = true /\
     cpu_temp_offset api = Some 5%N /\ cpu_temp_count api = Some 1%N) /\
  (exists api,
     (connect_argus CPUDisplayService_init
        {| att_opened := Ret tt; att_data_init := region_empty;
           att_data_check := region_empty |}).1 = true /\
     forall data, get_cpu_temp_raw api data = Ret None).
Proof.
  split.
  - destruct (connect_falls_back_to_additional CPUDisplayService_init
                {| att_opened := Ret tt; att_data_init := region_fallback;
                   att_data_check := region_fallback |}
                eq_refl eq_refl eq_refl eq_refl)
      as (api & Hok & _ & Hoff & Hcnt & _).
    exists api. auto.
  - destruct (connect_falls_back_to_additional CPUDisplayService_init
                {| att_opened := Ret tt; att_data_init := region_empty;
                   att_data_check := region_empty |}
                eq_refl eq_refl eq_refl eq_refl)
      as (api & Hok & _ & _ & _ & Hnone).
    exists api. split; [exact Hok | exact (Hnone eq_refl)].
Defined.

(** C10. [get_all_cpu_temps] lists the primary category only: when that
    category is empty and the additional one is not, with its offset inside
    the sensor array, the list is empty although [get_cpu_temp_raw], on the
    cache made from the same region, returns the reading at the additional
    category's offset. *)
Theorem get_all_cpu_temps_ignores_fallback (data : ArgusMonitorData) :
  is_active data = true ->
  SensorCount data SENSOR_TYPE_CPU_TEMPERATURE = 0%N ->
  SensorCount data SENSOR_TYPE_CPU_TEMPERATURE_ADDITIONAL <> 0%N ->
  (N.to_nat (OffsetForSensorType data SENSOR_TYPE_CPU_TEMPERATURE_ADDITIONAL)
     < MAX_SENSOR_COUNT)%nat ->
  get_all_cpu_temps data = Ret [] /\
  get_cpu_temp_raw (_cache_sensor_info api_unpopulated data) data
    = Ret (Some (Value (SensorData data
             (N.to_nat (OffsetForSensorType data
                          SENSOR_TYPE_CPU_TEMPERATURE_ADDITIONAL))))).
Proof.
  intros Hact Hzero Hadd Hoff. unfold is_active in Hact. split.
  - unfold get_all_cpu_temps. rewrite Hact, Hzero. reflexivity.
  - apply (get_cpu_temp_raw_value _ data _
             (SensorCount data SENSOR_TYPE_CPU_TEMPERATURE_ADDITIONAL));
      trivial.
    + now apply N.eqb_eq.
    + unfold _cache_sensor_info. now rewrite Hact, Hzero.
    + unfold _cache_sensor_info. now rewrite Hact, Hzero.
Qed.

Lemma get_all_cpu_temps_ignores_fallback_witness :
  get_all_cpu_temps region_fallback = Ret [] /\
  get_cpu_temp_raw (_cache_sensor_info api_unpopulated region_fallback)
    region_fallback = Ret (Some f_42_5).
Proof.
  apply (get_all_cpu_temps_ignores_fallback region_fallback).
  - reflexivity.
  - reflexivity.
  - discriminate.
  - unfold MAX_SENSOR_COUNT. simpl. lia.
Defined.

(** ** The connection retries of [start] *)

Lemma retry_trace_counts (n : nat) :
  count_connects (retry_trace n) = S n /\
  sleeps (retry_trace n) = replicate n ARGUS_CONNECTION_RETRY_DELAY /\
  opens_display (retry_trace n) = false /\
  device_writes (retry_trace n) = [].
Proof.
  induction n as [|n (IHc & IHs & IHo & IHw)]; [now split_and!|].
  split_and!.
  - unfold count_connects in *. cbn. now rewrite IHc.
  - unfold sleeps in *. cbn. now rewrite IHs.
  - exact IHo.
  - exact IHw.
Qed.

Lemma retry_trace_then_display (n : nat) :
  count_connects (retry_trace n ++ [EvOpenDisplay]) = S n /\
  sleeps (retry_trace n ++ [EvOpenDisplay])
    = replicate n ARGUS_CONNECTION_RETRY_DELAY /\
  opens_display (retry_trace n ++ [EvOpenDisplay]) = true.
Proof.
  destruct (retry_trace_counts n) as (Hc & Hs & _).
  split_and!.
  - unfold count_connects in *. rewrite List.filter_app, length_app, Hc.
    cbn. lia.
  - unfold sleeps in *. rewrite omap_app, Hs. cbn. apply app_nil_r.
  - unfold opens_display. rewrite existsb_app. cbn. apply orb_true_r.
Qed.

(** The loop is left by [break] at the first attempt that succeeds. *)
Lemma connect_loop_success (env : nat -> argus_attempt) (n : nat) :
  forall (k N : nat) (self : CPUDisplayService),
    (k + n = ARGUS_CONNECTION_MAX_RETRIES)%nat ->
    (N < n)%nat ->
    (forall i, (i < N)%nat -> attempt_succeeds (env (k + i)%nat) = false) ->
    attempt_succeeds (env (k + N)%nat) = true ->
    exists self1,
      connect_loop self (seq k n) env = (LoopBreak, self1, retry_trace N).
Proof.
  induction n as [|n IH]; intros k N self Hk HN Hfail Hok; [lia|].
  cbn [seq connect_loop].
  pose proof (connect_argus_ok self (env k)) as Hfst.
  destruct (connect_argus self (env k)) as [ok self1]. cbn [fst] in Hfst.
  destruct N as [|N].
  - rewrite Nat.add_0_r in Hok. rewrite Hfst, Hok. eauto.
  - pose proof (Hfail 0%nat ltac:(lia)) as H0. rewrite Nat.add_0_r in H0.
    rewrite Hfst, H0.
    unfold ARGUS_CONNECTION_MAX_RETRIES in *.
    destruct (Nat.ltb_spec k (6 - 1)); [|lia].
    destruct (IH (S k) N self1) as [self2 ->]; [lia | lia | | | eauto].
    + intros i Hi. replace (S k + i)%nat with (k + S i)%nat by lia.
      apply Hfail. lia.
    + now replace (S k + N)%nat with (k + S N)%nat by lia.
Qed.

(** The loop is left by [return False] when every attempt fails. *)
Lemma connect_loop_failure (env : nat -> argus_attempt) (n : nat) :
  forall (k : nat) (self : CPUDisplayService),
    (k + S n = ARGUS_CONNECTION_MAX_RETRIES)%nat ->
    (forall i, (i < S n)%nat -> attempt_succeeds (env (k + i)%nat) = false) ->
    exists self1,
      connect_loop self (seq k (S n)) env
        = (LoopReturn false, self1, retry_trace n).
Proof.
  induction n as [|n IH]; intros k self Hk Hfail;
    change (seq k (S ?m)) with (k :: seq (S k) m);
    cbn [connect_loop];
    pose proof (connect_argus_ok self (env k)) as Hfst;
    (destruct (connect_argus self (env k)) as [ok self1]); cbn [fst] in Hfst;
    rewrite Hfst; pose proof (Hfail 0%nat ltac:(lia)) as H0;
    rewrite Nat.add_0_r in H0; rewrite H0;
    unfold ARGUS_CONNECTION_MAX_RETRIES in *.
  - destruct (Nat.ltb_spec k (6 - 1)); [lia|]. eauto.
  - destruct (Nat.ltb_spec k (6 - 1)); [|lia].
    destruct (IH (S k) self1) as [self2 Hloop]; [lia | |].
    + intros i Hi. replace (S k + i)%nat with (k + S i)%nat by lia.
      apply Hfail. lia.
    + rewrite Hloop. eauto.
Qed.

(** C6. Let [N] be the number of attempts that fail before the first one
    that succeeds, or 6 when none of the six does.  [start] makes
    [N + 1] attempts when [N < 6] and 6 otherwise, sleeps 10 seconds after
    each failed attempt but the sixth, and goes on to open the display
    exactly when [N < 6]; after six failures it returns [False] with the
    display untouched. *)
Theorem start_retries_argus_connection (self : CPUDisplayService)
    (env : start_env) (N : nat) :
  (N <= ARGUS_CONNECTION_MAX_RETRIES)%nat ->
  (forall i, (i < N)%nat -> attempt_succeeds (start_attempts env i) = false) ->
  ((N < ARGUS_CONNECTION_MAX_RETRIES)%nat ->
   attempt_succeeds (start_attempts env N) = true) ->
  let evs := (start self env).2 in
  evs = retry_trace (Nat.min N 5) ++ (if (N <? 6)%nat then [EvOpenDisplay] else []) /\
  count_connects evs = Nat.min (S N) 6 /\
  sleeps evs = replicate (Nat.min N 5) 10 /\
  opens_display evs = (N <? 6)%nat /\
  (N = 6%nat -> (start self env).1.1 = Ret false).
Proof.
  intros HN Hfail Hok evs. subst evs. unfold start.
  unfold ARGUS_CONNECTION_MAX_RETRIES in HN, Hok.
  destruct (Nat.ltb_spec N 6) as [Hlt | Hge].
  - destruct (connect_loop_success (start_attempts env)
                ARGUS_CONNECTION_MAX_RETRIES 0 N self) as [self1 ->];
      [reflexivity | exact Hlt | exact Hfail | exact (Hok Hlt) |].
    rewrite Nat.min_l by lia.
    replace (Nat.min (S N) 6) with (S N) by lia.
    destruct (retry_trace_then_display N) as (Hc & Hs & Ho).
    assert (Hevs : (let '(ok, self2) := connect_display self1 (start_display env) in
                    if negb ok then (Ret false, self2, retry_trace N ++ [EvOpenDisplay])
                    else
                      match argus self2 with
                      | Some _ =>
                          match get_all_cpu_temps (start_data env) with
                          | Ret _ => (Ret true, self2, retry_trace N ++ [EvOpenDisplay])
                          | Raise e => (Raise e, self2, retry_trace N ++ [EvOpenDisplay])
                          end
                      | None =>
                          (Raise AttributeError, self2,
                           retry_trace N ++ [EvOpenDisplay])
                      end).2 = retry_trace N ++ [EvOpenDisplay]).
    { destruct (connect_display self1 (start_display env)) as [ok self2].
      destruct ok; cbn [negb]; [|reflexivity].
      destruct (argus self2); [|reflexivity].
      destruct (get_all_cpu_temps (start_data env)); reflexivity. }
    cbv zeta. rewrite Hevs. split_and!; trivial. lia.
  - assert (N = 6)%nat as -> by lia.
    destruct (connect_loop_failure (start_attempts env) 5 0 self) as [self1 Hloop];
      [reflexivity | exact Hfail |].
    change (seq 0 ARGUS_CONNECTION_MAX_RETRIES) with (seq 0 6).
    rewrite Hloop. cbn [fst snd Nat.min].
    destruct (retry_trace_counts 5) as (Hc & Hs & Ho & _).
    rewrite app_nil_r. split_and!; trivial.
Qed.

Lemma start_retries_argus_connection_witness :
  (count_connects (start CPUDisplayService_init env_third_time).2 = 3%nat /\
   sleeps (start CPUDisplayService_init env_third_time).2 = [10; 10] /\
   opens_display (start CPUDisplayService_init env_third_time).2 = true) /\
  (count_connects (start CPUDisplayService_init env_never).2 = 6%nat /\
   sleeps (start CPUDisplayService_init env_never).2 = [10; 10; 10; 10; 10] /\
   opens_display (start CPUDisplayService_init env_never).2 = false /\
   (start CPUDisplayService_init env_never).1.1 = Ret false).
Proof.
  split.
  - destruct (start_retries_argus_connection CPUDisplayService_init
                env_third_time 2) as (_ & Hc & Hs & Ho & _).
    + unfold ARGUS_CONNECTION_MAX_RETRIES. lia.
    + intros i Hi. destruct i as [|[|i]]; [reflexivity | reflexivity | lia].
    + reflexivity.
    + split_and!; [exact Hc | exact Hs | exact Ho].
  - destruct (start_retries_argus_connection CPUDisplayService_init
                env_never 6) as (_ & Hc & Hs & Ho & Hr).
    + unfold ARGUS_CONNECTION_MAX_RETRIES. lia.
    + reflexivity.
    + unfold ARGUS_CONNECTION_MAX_RETRIES. lia.
    + split_and!; [exact Hc | exact Hs | exact Ho | exact (Hr eq_refl)].
Defined.

(** ** A sample run *)

(** Argus Monitor is ready at the third attempt; the loop then reads 42.4
    degrees twice and 43.5 once.  The first tick is forced (the deadline is
    still 0), the second is skipped, the third writes the new value. *)
Example service_run_sample :
  service_run env_third_time
    [ {| tick_data := region_reading f_42_4; tick_now := 1000;
         tick_written := Ret tt; tick_now_after := 1000 |};
      {| tick_data := region_reading f_42_4; tick_now := 1001;
         tick_written := Ret tt; tick_now_after := 1001 |};
      {| tick_data := region_reading f_43_5; tick_now := 1002;
         tick_written := Ret tt; tick_now_after := 1002 |} ]
  = [ EvConnectArgus; EvSleep 10; EvConnectArgus; EvSleep 10; EvConnectArgus;
      EvOpenDisplay;
      EvDeviceWrite (<[2%nat := 42]> (packet CPUDisplayService_init));
      EvDeviceWrite (<[2%nat := 44]> (packet CPUDisplayService_init)) ].
Proof. vm_compute. reflexivity. Qed.

(** * Further properties of the module *)

(** ** Reading the CPU temperature *)

Lemma carray_get_in_range {T : Type} (len : nat) (a : carray T) (i : N) :
  (N.to_nat i < len)%nat -> carray_get len a i = Ret (a (N.to_nat i)).
Proof.
  intros Hi. unfold carray_get. apply Nat.ltb_lt in Hi. now rewrite Hi.
Qed.

Lemma carray_get_out_of_range {T : Type} (len : nat) (a : carray T) (i : N) :
  (len <= N.to_nat i)%nat -> carray_get len a i = Raise IndexError.
Proof.
  intros Hi. unfold carray_get. apply Nat.ltb_ge in Hi. now rewrite Hi.
Qed.

(** X1. [get_cpu_temp_raw] raises in two cases only, both under a matching
    signature and a cached count that is not zero: [TypeError] when the cache
    was never filled, [IndexError] when the cached offset is past the sensor
    array. *)
Theorem get_cpu_temp_raw_raises_iff (self : ArgusMonitorAPI)
    (data : ArgusMonitorData) (e : exn) :
  get_cpu_temp_raw self data = Raise e <->
  cpu_temp_count self <> Some 0%N /\
  Signature data = ARGUS_SIGNATURE /\
  ((cpu_temp_offset self = None /\ e = TypeError) \/
   (exists offset, cpu_temp_offset self = Some offset /\
                   (MAX_SENSOR_COUNT <= N.to_nat offset)%nat /\ e = IndexError)).
Proof.
  destruct (decide (cpu_temp_count self = Some 0%N)) as [Hz | Hnz].
  { rewrite (get_cpu_temp_raw_zero_count self data Hz).
    split; [discriminate | intros (? & _); contradiction]. }
  destruct (N.eq_dec (Signature data) ARGUS_SIGNATURE) as [Hs | Hs].
  2: { rewrite (get_cpu_temp_raw_stale self data Hs).
       split; [discriminate | intros (_ & ? & _); contradiction]. }
  assert (Hbody : get_cpu_temp_raw self data =
            match cpu_temp_offset self with
            | None => Raise TypeError
            | Some offset =>
                sensor ← carray_get MAX_SENSOR_COUNT (SensorData data) offset;
                Ret (Some (Value sensor))
            end).
  { unfold get_cpu_temp_raw, count_is_zero.
    apply N.eqb_eq in Hs. rewrite Hs. cbn [negb].
    destruct (cpu_temp_count self) as [c|]; [|reflexivity].
    destruct (N.eqb_spec c 0) as [-> | _]; [contradiction | reflexivity]. }
  rewrite Hbody. destruct (cpu_temp_offset self) as [offset|].
  - destruct (Nat.lt_ge_cases (N.to_nat offset) MAX_SENSOR_COUNT) as [Hlt | Hge].
    + rewrite carray_get_in_range by exact Hlt. cbn. split; [discriminate|].
      intros (_ & _ & [[? _] | (o & [= <-] & ? & _)]); [discriminate | lia].
    + rewrite carray_get_out_of_range by exact Hge. cbn. split.
      * intros [= <-]. split_and!; trivial. right. now exists offset.
      * intros (_ & _ & [[? _] | (o & _ & _ & ->)]); [discriminate | reflexivity].
  - split.
    + intros [= <-]. split_and!; trivial. now left.
    + intros (_ & _ & [[_ ->] | (o & ? & _)]); [reflexivity | discriminate].
Qed.

(** X2. [get_cpu_temp] rounds an available finite reading to a nearest
    integer [r] without clamping it, while [write_temp] sends [r] clamped to
    [0, 99] for the same reading: every report of a call carries it at
    byte 2, and a forced call in the Running state hands over exactly one
    such report. *)
Theorem get_cpu_temp_rounds_unclamped (self : ArgusMonitorAPI)
    (data : ArgusMonitorData) (raw : spec_float) (v : Q) :
  get_cpu_temp_raw self data = Ret (Some raw) ->
  float_val raw = Some v ->
  exists r,
    get_cpu_temp self data = Ret (Some r) /\
    nearest_integer v r /\
    (forall service force written now p,
       In (EvDeviceWrite p) (write_temp service raw force written now).2 ->
       p !! 2%nat = Some (spec_clamp r)) /\
    (forall service written now,
       running service ->
       (write_temp service raw true written now).2
         = [EvDeviceWrite (<[2%nat := spec_clamp r]> (packet service))]).
Proof.
  intros Hraw Hv.
  destruct (rounded_temp_finite raw v Hv) as (r & Hr & Hn & Ht).
  exists r. split_and!; trivial.
  - unfold get_cpu_temp. rewrite Hraw. cbn. now rewrite Hr.
  - intros service force written now p. now apply write_temp_report_value.
  - intros service written now (Hreach & _ & Hd).
    apply reachable_packet_shape in Hreach as (Hlen & _).
    rewrite (write_temp_cases service _ raw (spec_clamp r) true written now Hd);
      trivial; [|lia].
    now destruct written.
Qed.

Lemma get_cpu_temp_rounds_unclamped_witness :
  get_cpu_temp (_cache_sensor_info api_unpopulated (region_reading f_150))
    (region_reading f_150) = Ret (Some 150) /\
  (write_temp service_showing_42 f_150 true (Ret tt) 1020).2
    = [EvDeviceWrite (<[2%nat := 99]> (packet service_showing_42))].
Proof.
  destruct (get_cpu_temp_rounds_unclamped
              (_cache_sensor_info api_unpopulated (region_reading f_150))
              (region_reading f_150) f_150 (150 * 2 ^ 45 # 2 ^ 45)
              eq_refl eq_refl) as (r & Hget & _ & _ & Hw).
  injection Hget as <-. split; [reflexivity|].
  exact (Hw service_showing_42 (Ret tt) 1020%Q service_showing_42_running).
Defined.

(** ** Listing the CPU temperatures *)


Lemma collect_cpu_temps_in_range (sensors : carray ArgusMonitorSensorData)
    (offset : N) (indices : list nat) :
  forall temps,
    Forall (fun i => (N.to_nat offset + i < MAX_SENSOR_COUNT)%nat) indices ->
    collect_cpu_temps sensors offset indices temps
      = Ret (temps ++ map (fun i => cpu_temp_entry_of
                                      (sensors (N.to_nat offset + i)%nat)) indices).
Proof.
  induction indices as [|i rest IH]; intros temps Hall; cbn [collect_cpu_temps map].
  - now rewrite app_nil_r.
  - apply Forall_cons in Hall as [Hi Hrest].
    rewrite carray_get_in_range by lia. cbn.
    rewrite IH by exact Hrest. rewrite <- app_assoc. cbn.
    replace (N.to_nat (offset + N.of_nat i)) with (N.to_nat offset + i)%nat by lia.
    reflexivity.
Qed.

Lemma collect_cpu_temps_overrun (sensors : carray ArgusMonitorSensorData)
    (offset : N) (indices : list nat) :
  forall temps,
    Exists (fun i => (MAX_SENSOR_COUNT <= N.to_nat offset + i)%nat) indices ->
    collect_cpu_temps sensors offset indices temps = Raise IndexError.
Proof.
  induction indices as [|i rest IH]; intros temps Hex; [now apply Exists_nil in Hex|].
  cbn [collect_cpu_temps].
  destruct (Nat.lt_ge_cases (N.to_nat offset + i) MAX_SENSOR_COUNT) as [Hlt | Hge].
  - rewrite carray_get_in_range by lia. cbn.
    apply IH. apply Exists_cons in Hex as [Hi | Hrest]; [lia | exact Hrest].
  - now rewrite carray_get_out_of_range by lia.
Qed.

(** X3. On an active region whose primary CPU category lies inside the
    sensor array, [get_all_cpu_temps] returns one entry per record of the
    category, in order: the [i]-th entry has the label, value and unit of the
    record at position [offset + i]. *)
Theorem get_all_cpu_temps_lists_the_category (data : ArgusMonitorData) :
  Signature data = ARGUS_SIGNATURE ->
  (N.to_nat (OffsetForSensorType data SENSOR_TYPE_CPU_TEMPERATURE)
   + N.to_nat (SensorCount data SENSOR_TYPE_CPU_TEMPERATURE)
   <= MAX_SENSOR_COUNT)%nat ->
  get_all_cpu_temps data =
    Ret (map (fun i =>
                cpu_temp_entry_of
                  (SensorData data
                     (N.to_nat (OffsetForSensorType data SENSOR_TYPE_CPU_TEMPERATURE)
                      + i)%nat))
             (seq 0 (N.to_nat (SensorCount data SENSOR_TYPE_CPU_TEMPERATURE)))).
Proof.
  intros Hsig Hfit. unfold get_all_cpu_temps.
  apply N.eqb_eq in Hsig. rewrite Hsig. cbn [negb].
  rewrite collect_cpu_temps_in_range; [reflexivity|].
  apply Forall_forall. intros i Hi. apply elem_of_seq in Hi. lia.
Qed.

Lemma get_all_cpu_temps_lists_the_category_witness :
  get_all_cpu_temps region_primary =
    Ret [ {| entry_label := "CPU"; entry_value := f_42_4; entry_unit := "C" |};
          {| entry_label := "CPU 2"; entry_value := f_42_6; entry_unit := "C" |} ].
Proof.
  apply (get_all_cpu_temps_lists_the_category region_primary).
  - reflexivity.
  - unfold MAX_SENSOR_COUNT. simpl. lia.
Defined.

(** X4. [get_all_cpu_temps] raises exactly when the region is active and
    the primary category, not empty, runs past the 512 records of the sensor
    array; the exception is [IndexError], and the entries read before it are
    lost. *)
Theorem get_all_cpu_temps_raises_iff (data : ArgusMonitorData) (e : exn) :
  get_all_cpu_temps data = Raise e <->
  Signature data = ARGUS_SIGNATURE /\
  SensorCount data SENSOR_TYPE_CPU_TEMPERATURE <> 0%N /\
  (MAX_SENSOR_COUNT
   < N.to_nat (OffsetForSensorType data SENSOR_TYPE_CPU_TEMPERATURE)
     + N.to_nat (SensorCount data SENSOR_TYPE_CPU_TEMPERATURE))%nat /\
  e = IndexError.
Proof.
  unfold get_all_cpu_temps.
  destruct (N.eqb_spec (Signature data) ARGUS_SIGNATURE) as [Hs | Hs]; cbn [negb].
  - set (offset := OffsetForSensorType data SENSOR_TYPE_CPU_TEMPERATURE).
    set (count := SensorCount data SENSOR_TYPE_CPU_TEMPERATURE).
    destruct (Nat.le_gt_cases (N.to_nat offset + N.to_nat count) MAX_SENSOR_COUNT)
      as [Hfit | Hover].
    + rewrite collect_cpu_temps_in_range.
      * split; [discriminate | lia].
      * apply Forall_forall. intros i Hi. apply elem_of_seq in Hi. lia.
    + destruct (N.eq_dec count 0%N) as [Hz | Hnz].
      * rewrite Hz. cbn. split; [discriminate | intros (_ & ? & _); congruence].
      * rewrite collect_cpu_temps_overrun.
        -- split; [intros [= <-]; now split_and! | now intros (_ & _ & _ & ->)].
        -- apply Exists_exists. exists (N.to_nat count - 1)%nat. split; [|lia].
           apply elem_of_seq. lia.
  - split; [discriminate | intros (? & _); contradiction].
Qed.

(** X5. When the primary CPU category of an active region is not empty and
    lies inside the sensor array, the reading [get_cpu_temp_raw] returns, on
    the cache made from that region, is the value of the first entry of
    [get_all_cpu_temps]. *)
Theorem reading_is_first_listed_temp (data : ArgusMonitorData) :
  Signature data = ARGUS_SIGNATURE ->
  SensorCount data SENSOR_TYPE_CPU_TEMPERATURE <> 0%N ->
  (N.to_nat (OffsetForSensorType data SENSOR_TYPE_CPU_TEMPERATURE)
   + N.to_nat (SensorCount data SENSOR_TYPE_CPU_TEMPERATURE)
   <= MAX_SENSOR_COUNT)%nat ->
  exists first rest,
    get_all_cpu_temps data = Ret (first :: rest) /\
    get_cpu_temp_raw (_cache_sensor_info api_unpopulated data) data
      = Ret (Some (entry_value first)).
Proof.
  intros Hsig Hnz Hfit.
  set (offset := OffsetForSensorType data SENSOR_TYPE_CPU_TEMPERATURE) in *.
  set (count := SensorCount data SENSOR_TYPE_CPU_TEMPERATURE) in *.
  assert (Hlist : get_all_cpu_temps data =
            Ret (map (fun i => cpu_temp_entry_of
                                 (SensorData data (N.to_nat offset + i)%nat))
                     (seq 0 (N.to_nat count)))).
  { unfold get_all_cpu_temps. fold offset count.
    apply N.eqb_eq in Hsig. rewrite Hsig. cbn [negb].
    rewrite collect_cpu_temps_in_range; [reflexivity|].
    apply Forall_forall. intros i Hi. apply elem_of_seq in Hi. lia. }
  destruct (N.to_nat count) as [|n] eqn:Hn; [lia|].
  cbn [seq map] in Hlist. eexists _, _. split; [exact Hlist|].
  cbn [entry_value cpu_temp_entry_of]. rewrite Nat.add_0_r.
  apply (get_cpu_temp_raw_value _ data offset count); trivial.
  - unfold _cache_sensor_info. fold offset count.
    apply N.eqb_eq in Hsig. rewrite Hsig. cbn [negb].
    apply N.eqb_neq in Hnz. now rewrite Hnz.
  - unfold _cache_sensor_info. fold offset count.
    apply N.eqb_eq in Hsig. rewrite Hsig. cbn [negb].
    apply N.eqb_neq in Hnz. now rewrite Hnz.
  - lia.
Qed.

Lemma reading_is_first_listed_temp_witness :
  exists first rest,
    get_all_cpu_temps region_primary = Ret (first :: rest) /\
    get_cpu_temp_raw (_cache_sensor_info api_unpopulated region_primary)
      region_primary = Ret (Some (entry_value first)).
Proof.
  apply (reading_is_first_listed_temp region_primary).
  - reflexivity.
  - discriminate.
  - unfold MAX_SENSOR_COUNT. simpl. lia.
Defined.

(** ** Listing all sensors *)

Lemma collect_sensors_in_range (sensor_data : carray ArgusMonitorSensorData)
    (indices : list nat) :
  forall sensors,
    Forall (fun i => (i < MAX_SENSOR_COUNT)%nat) indices ->
    collect_sensors sensor_data indices sensors
      = Ret (sensors ++ map (fun i => sensor_entry_of (sensor_data i)) indices).
Proof.
  induction indices as [|i rest IH]; intros sensors Hall;
    cbn [collect_sensors map].
  - now rewrite app_nil_r.
  - apply Forall_cons in Hall as [Hi Hrest].
    rewrite carray_get_in_range by lia. cbn.
    rewrite IH by exact Hrest. rewrite <- app_assoc. cbn.
    now rewrite Nat2N.id.
Qed.

Lemma collect_sensors_overrun (sensor_data : carray ArgusMonitorSensorData)
    (indices : list nat) :
  forall sensors,
    Exists (fun i => (MAX_SENSOR_COUNT <= i)%nat) indices ->
    collect_sensors sensor_data indices sensors = Raise IndexError.
Proof.
  induction indices as [|i rest IH]; intros sensors Hex;
    [now apply Exists_nil in Hex|].
  cbn [collect_sensors].
  destruct (Nat.lt_ge_cases i MAX_SENSOR_COUNT) as [Hlt | Hge].
  - rewrite carray_get_in_range by lia. cbn.
    apply IH. apply Exists_cons in Hex as [Hi | Hrest]; [lia | exact Hrest].
  - now rewrite carray_get_out_of_range by lia.
Qed.

(** X6. [get_all_sensors] returns the empty list on a region that is not
    active; on an active one it returns one entry per record below
    [TotalSensorCount], in order, when that count is at most 512, and raises
    [IndexError] when it is larger. *)
Theorem get_all_sensors_result (data : ArgusMonitorData) :
  get_all_sensors data =
    if negb (Signature data =? ARGUS_SIGNATURE)%N then Ret []
    else if (N.to_nat (TotalSensorCount data) <=? MAX_SENSOR_COUNT)%nat then
      Ret (map (fun i => sensor_entry_of (SensorData data i))
               (seq 0 (N.to_nat (TotalSensorCount data))))
    else Raise IndexError.
Proof.
  unfold get_all_sensors.
  destruct (negb (Signature data =? ARGUS_SIGNATURE)%N); [reflexivity|].
  destruct (Nat.leb_spec (N.to_nat (TotalSensorCount data)) MAX_SENSOR_COUNT)
    as [Hfit | Hover].
  - rewrite collect_sensors_in_range; [reflexivity|].
    apply Forall_forall. intros i Hi. apply elem_of_seq in Hi. lia.
  - apply collect_sensors_overrun. apply Exists_exists.
    exists MAX_SENSOR_COUNT. split; [apply elem_of_seq|]; lia.
Qed.

Lemma sensor_type_names_unknown (ty : N) :
  (26 <= ty)%N -> sensor_type_names ty = None.
Proof.
  intros Hty. destruct ty as [|p]; [lia|].
  do 5 (try destruct p as [p|p|]); try lia; reflexivity.
Qed.

Lemma known_sensor_type_names_distinct :
  forallb (fun a =>
    negb (String.prefix "UNKNOWN_" (sensor_type_name (N.of_nat a))) &&
    forallb (fun b =>
      implb (String.eqb (sensor_type_name (N.of_nat a))
                        (sensor_type_name (N.of_nat b)))
            (a =? b)%nat)
      (seq 0 26))
    (seq 0 26) = true.
Proof. vm_compute. reflexivity. Qed.

Lemma known_sensor_type_name (a : N) :
  (a < 26)%N ->
  String.prefix "UNKNOWN_" (sensor_type_name a) = false /\
  forall b, (b < 26)%N -> sensor_type_name a = sensor_type_name b -> a = b.
Proof.
  intros Ha.
  pose proof known_sensor_type_names_distinct as H.
  rewrite forallb_forall in H.
  specialize (H (N.to_nat a)). rewrite N2Nat.id in H.
  destruct (proj1 (andb_true_iff _ _) (H ltac:(apply in_seq; lia))) as [Hp Hd].
  split; [now apply negb_true_iff in Hp|].
  intros b Hb Heq. rewrite forallb_forall in Hd.
  specialize (Hd (N.to_nat b) ltac:(apply in_seq; lia)).
  rewrite N2Nat.id, Heq, String.eqb_refl in Hd. cbn in Hd.
  apply Nat.eqb_eq in Hd. lia.
Qed.

Lemma str_of_N_inj (a b : N) : str_of_N a = str_of_N b -> a = b.
Proof.
  unfold str_of_N. intros H.
  apply (f_equal NilEmpty.uint_of_string) in H.
  rewrite !NilEmpty.usu in H. injection H as H.
  now apply DecimalN.Unsigned.to_uint_inj.
Qed.

(** X7. The type name [get_all_sensors] gives an entry determines the type
    code: the 26 names of the table are distinct, none of them begins with
    [UNKNOWN_], and the decimal code that follows [UNKNOWN_] for the other
    codes is read back without loss. *)
Theorem sensor_type_name_determines_code (a b : N) :
  sensor_type_name a = sensor_type_name b <-> a = b.
Proof.
  split; [|now intros ->].
  intros Heq.
  destruct (N.lt_ge_cases a 26) as [Ha | Ha], (N.lt_ge_cases b 26) as [Hb | Hb].
  - now apply (known_sensor_type_name a Ha).
  - exfalso. destruct (known_sensor_type_name a Ha) as [Hp _].
    rewrite Heq in Hp. unfold sensor_type_name in Hp.
    rewrite (sensor_type_names_unknown b Hb) in Hp. cbn in Hp.
    destruct (str_of_N _) in Hp; discriminate Hp.
  - exfalso. destruct (known_sensor_type_name b Hb) as [Hp _].
    rewrite <- Heq in Hp. unfold sensor_type_name in Hp.
    rewrite (sensor_type_names_unknown a Ha) in Hp. cbn in Hp.
    destruct (str_of_N _) in Hp; discriminate Hp.
  - unfold sensor_type_name in Heq.
    rewrite (sensor_type_names_unknown a Ha),
      (sensor_type_names_unknown b Hb) in Heq.
    cbn in Heq. injection Heq as Heq. now apply str_of_N_inj.
Qed.

Lemma lstrip_nul_head (s : string) : head_char (lstrip_nul s) <> Some NUL.
Proof.
  induction s as [|c s IH]; cbn [lstrip_nul]; [discriminate|].
  destruct (Ascii.eqb_spec c NUL) as [-> | Hc]; [exact IH|].
  cbn. congruence.
Qed.

Lemma rstrip_nul_head (s : string) :
  rstrip_nul s = EmptyString \/ head_char (rstrip_nul s) = head_char s.
Proof.
  destruct s as [|c s]; [now left|]. cbn [rstrip_nul].
  destruct (rstrip_nul s); [|now right].
  destruct (Ascii.eqb c NUL); [now left | now right].
Qed.

Lemma rstrip_nul_last (s : string) : last_char (rstrip_nul s) <> Some NUL.
Proof.
  induction s as [|c s IH]; cbn [rstrip_nul]; [discriminate|].
  destruct (rstrip_nul s) as [|c' r] eqn:Hr.
  - destruct (Ascii.eqb_spec c NUL) as [-> | Hc]; cbn; congruence.
  - exact IH.
Qed.

Lemma lstrip_nul_fixed (s : string) :
  head_char s <> Some NUL -> lstrip_nul s = s.
Proof.
  destruct s as [|c s]; [reflexivity|]. cbn.
  destruct (Ascii.eqb_spec c NUL) as [-> | Hc]; [congruence | reflexivity].
Qed.

Lemma rstrip_nul_fixed (s : string) :
  last_char s <> Some NUL -> rstrip_nul s = s.
Proof.
  induction s as [|c s IH]; [reflexivity|]. cbn [rstrip_nul last_char].
  destruct s as [|c' s'].
  - cbn. destruct (Ascii.eqb_spec c NUL) as [-> | Hc]; [congruence | reflexivity].
  - intros Hl. rewrite (IH Hl). reflexivity.
Qed.

(** X8. The label and the unit of an entry of [get_all_sensors] neither
    begin nor end with a NUL character, and a text that has no NUL at either
    end is kept as it is. *)
Theorem strip_nul_ends (s : string) :
  head_char (strip_nul s) <> Some NUL /\
  last_char (strip_nul s) <> Some NUL /\
  (head_char s <> Some NUL -> last_char s <> Some NUL -> strip_nul s = s).
Proof.
  unfold strip_nul. split_and!.
  - destruct (rstrip_nul_head (lstrip_nul s)) as [-> | ->];
      [discriminate | apply lstrip_nul_head].
  - apply rstrip_nul_last.
  - intros Hh Hl. rewrite (lstrip_nul_fixed s Hh). now apply rstrip_nul_fixed.
Qed.

Lemma strip_nul_ends_witness :
  strip_nul (String NUL (String.append "CPU" (String NUL ""))) = "CPU"%string /\
  strip_nul "Core 0" = "Core 0"%string.
Proof.
  split.
  - reflexivity.
  - apply (strip_nul_ends "Core 0"); discriminate.
Defined.

(** ** The update loop *)

Lemma update_tick_unavailable (self : CPUDisplayService) (api : ArgusMonitorAPI)
    (env : tick_env) :
  argus self = Some api ->
  get_cpu_temp_raw api (tick_data env) = Ret None ->
  update_tick self env = Ret (self, []).
Proof. intros Ha Hraw. unfold update_tick. now rewrite Ha, Hraw. Qed.

(** X9. While the region's signature is not Argus's, the loop writes
    nothing and changes nothing, however many iterations run and whatever the
    clock: not even the mandatory refresh is sent. *)
Theorem update_loop_stale_region_writes_nothing (self : CPUDisplayService)
    (api : ArgusMonitorAPI) (ticks : list tick_env) :
  argus self = Some api ->
  Forall (fun env => Signature (tick_data env) <> ARGUS_SIGNATURE) ticks ->
  update_loop self ticks = (Ret tt, self, []).
Proof.
  intros Ha. induction 1 as [|env rest Hsig _ IH]; [reflexivity|].
  cbn [update_loop].
  rewrite (update_tick_unavailable self api env Ha
             (get_cpu_temp_raw_stale api _ Hsig)).
  now rewrite IH.
Qed.

Lemma update_loop_stale_region_writes_nothing_witness :
  update_loop service_showing_42
    [ {| tick_data := region_stale; tick_now := 1016;
         tick_written := Ret tt; tick_now_after := 1016 |};
      {| tick_data := region_stale; tick_now := 5000;
         tick_written := Ret tt; tick_now_after := 5000 |} ]
  = (Ret tt, service_showing_42, []).
Proof.
  apply (update_loop_stale_region_writes_nothing service_showing_42
           (_cache_sensor_info api_unpopulated region_primary)).
  - reflexivity.
  - repeat constructor; discriminate.
Defined.

Lemma write_temp_at_most_one (self : CPUDisplayService) (raw : spec_float)
    (force : bool) (written : result unit) (now : Q) :
  (length (device_writes (write_temp self raw force written now).2) <= 1)%nat.
Proof.
  destruct (write_temp_events self raw force written now)
    as [-> | (t & _ & -> & _)]; cbn; lia.
Qed.

Lemma update_tick_at_most_one (self self1 : CPUDisplayService) (env : tick_env)
    (evs : list event) :
  update_tick self env = Ret (self1, evs) ->
  (length (device_writes evs) <= 1)%nat.
Proof.
  unfold update_tick.
  destruct (argus self) as [api|]; [|discriminate].
  destruct (get_cpu_temp_raw api (tick_data env)) as [[raw|]|e]; cbn;
    [ | intros [= <- <-]; cbn; lia | discriminate].
  pose proof (write_temp_at_most_one self raw (force_write self (tick_now env))
                (tick_written env) (tick_now_after env)) as Hw.
  destruct (write_temp self raw _ _ _) as [[ok s] ev]. cbn [snd] in Hw.
  now intros [= <- <-].
Qed.

(** X10. The loop hands the device at most one report per iteration. *)
Theorem update_loop_writes_at_most_once_per_tick (self : CPUDisplayService)
    (ticks : list tick_env) :
  (length (device_writes (update_loop self ticks).2) <= length ticks)%nat.
Proof.
  revert self. induction ticks as [|env rest IH]; intros self; cbn [update_loop].
  - cbn. lia.
  - destruct (update_tick self env) as [[self1 evs]|e] eqn:Ht; [|cbn; lia].
    apply update_tick_at_most_one in Ht.
    specialize (IH self1).
    destruct (update_loop self1 rest) as [[r self2] evs2]. cbn [snd length] in *.
    unfold device_writes in *. rewrite omap_app, length_app. lia.
Qed.

(** X12. In the Running state, a stretch of iterations whose readings all
    round and clamp to the value last written, none of them at or past the
    deadline, writes nothing and leaves the state as it is. *)
Theorem update_loop_flat_readings_write_nothing (self : CPUDisplayService)
    (api : ArgusMonitorAPI) (ticks : list tick_env) :
  running self ->
  argus self = Some api ->
  Forall (fun env =>
            force_write self (tick_now env) = false /\
            exists raw,
              get_cpu_temp_raw api (tick_data env) = Ret (Some raw) /\
              rounded_temp raw = Ret (last_temp self)) ticks ->
  update_loop self ticks = (Ret tt, self, []).
Proof.
  intros Hrun Ha. induction 1 as [|env rest (Hf & raw & Hraw & Ht) _ IH];
    [reflexivity|].
  cbn [update_loop].
  rewrite (update_tick_running self api env raw (last_temp self) Hrun Ha Hraw Ht).
  rewrite Hf, Z.eqb_refl. cbn. now rewrite IH.
Qed.

Lemma update_loop_flat_readings_write_nothing_witness :
  update_loop service_showing_42
    [ tick_flat;
      {| tick_data := region_reading f_42_5; tick_now := 1010;
         tick_written := Ret tt; tick_now_after := 1010 |};
      {| tick_data := region_reading f_42_0; tick_now := 1014;
         tick_written := Raise IOError; tick_now_after := 1014 |} ]
  = (Ret tt, service_showing_42, []).
Proof.
  apply (update_loop_flat_readings_write_nothing service_showing_42
           (_cache_sensor_info api_unpopulated region_primary)).
  - exact service_showing_42_running.
  - reflexivity.
  - repeat constructor; eexists; split; reflexivity.
Defined.

(** ** What [write_temp] returns *)

(** X13. On a service reached from [__init__], [write_temp] returns [True]
    exactly when a device object exists, the reading rounds (it is finite),
    and either the write was skipped by the debounce or the device write
    returned; no device, a NaN or an infinity, and a device write that raises
    all give [False]. *)
Theorem write_temp_returns_true_iff (self : CPUDisplayService) (raw : spec_float)
    (force : bool) (written : result unit) (now : Q) :
  reachable self ->
  (write_temp self raw force written now).1.1 = true <->
  device self <> None /\
  exists t, rounded_temp raw = Ret t /\
    ((force = false /\ t = last_temp self) \/ written = Ret tt).
Proof.
  intros Hr. apply reachable_packet_shape in Hr as (Hlen & _).
  destruct (device self) as [dev|] eqn:Hd.
  - destruct (rounded_temp raw) as [t|e] eqn:Ht.
    + rewrite (write_temp_cases self dev raw t force written now Hd) by (trivial; lia).
      split.
      * intros H. split; [discriminate|]. exists t. split; [reflexivity|].
        destruct (negb force && (t =? last_temp self)) eqn:E.
        -- left. apply andb_prop in E as [Hf Heq].
           apply negb_true_iff in Hf. apply Z.eqb_eq in Heq. now split.
        -- right. destruct written as [[]|e]; [reflexivity | discriminate H].
      * intros (_ & t' & [= <-] & [[-> ->] | ->]).
        -- cbn. now rewrite Z.eqb_refl.
        -- now destruct (negb force && (t =? last_temp self)).
    + unfold write_temp. rewrite Hd, Ht. cbn. split; [discriminate|].
      intros (_ & t & ? & _). discriminate.
  - unfold write_temp. rewrite Hd. cbn. split; [discriminate|].
    intros (? & _). contradiction.
Qed.

Lemma write_temp_returns_true_iff_witness :
  (write_temp service_showing_42 f_42_4 false (Raise IOError) 1001).1.1 = true /\
  (write_temp service_showing_42 f_43_5 false (Ret tt) 1001).1.1 = true.
Proof.
  split.
  - apply (write_temp_returns_true_iff service_showing_42 f_42_4 false
             (Raise IOError) 1001%Q).
    + apply service_showing_42_running.
    + split; [discriminate|]. exists 42. split; [reflexivity|]. left. now split.
  - apply (write_temp_returns_true_iff service_showing_42 f_43_5 false
             (Ret tt) 1001%Q).
    + apply service_showing_42_running.
    + split; [discriminate|]. exists 44. split; [reflexivity|]. now right.
Defined.

(** X14. [last_temp] is -1 until a report is handed to the device, and
    from then on it is the temperature at byte 2 of the report buffer, that
    is of the last report handed over, whether the device took it or not. *)
Theorem last_temp_is_in_the_report_buffer (self : CPUDisplayService) :
  reachable self ->
  last_temp self = -1 \/ packet self !! 2%nat = Some (last_temp self).
Proof. apply reachable_last_temp. Qed.

Lemma last_temp_is_in_the_report_buffer_witness :
  last_temp service_showing_42 = -1 \/
  packet service_showing_42 !! 2%nat = Some (last_temp service_showing_42).
Proof.
  apply (last_temp_is_in_the_report_buffer service_showing_42).
  apply service_showing_42_running.
Defined.

(** X15. When a forced device write fails, the deadline stays where it was:
    with a clock that does not go back, the next iteration with an available
    finite reading is forced again and hands the device a report, whatever
    its value. *)
Theorem failed_refresh_is_retried (self : CPUDisplayService)
    (api : ArgusMonitorAPI) (env env2 : tick_env) (raw raw2 : spec_float)
    (t t2 : Z) (e : exn) :
  running self ->
  argus self = Some api ->
  get_cpu_temp_raw api (tick_data env) = Ret (Some raw) ->
  rounded_temp raw = Ret t ->
  force_write self (tick_now env) = true ->
  tick_written env = Raise e ->
  (tick_now env <= tick_now env2)%Q ->
  get_cpu_temp_raw api (tick_data env2) = Ret (Some raw2) ->
  rounded_temp raw2 = Ret t2 ->
  exists self1 self2 p1 p2,
    update_tick self env = Ret (self1, [EvDeviceWrite p1]) /\
    update_tick self1 env2 = Ret (self2, [EvDeviceWrite p2]) /\
    p1 !! 2%nat = Some t /\ p2 !! 2%nat = Some t2.
Proof.
  intros Hrun Ha Hraw Ht Hf Hw Hclock Hraw2 Ht2.
  pose proof (update_tick_running self api env raw t Hrun Ha Hraw Ht) as Htick.
  rewrite Hf, Hw in Htick. cbn [negb andb] in Htick.
  set (self1 := after_write self t (next_mandatory_write_time self)) in *.
  assert (Hrun1 : running self1).
  { pose proof (running_write_temp self raw true (Raise e) 0 Hrun) as H.
    destruct Hrun as (Hr & _ & Hd).
    rewrite (write_temp_cases self _ raw t true (Raise e) 0 Hd) in H; trivial.
    apply reachable_packet_shape in Hr as (Hlen & _). lia. }
  assert (Hf2 : force_write self1 (tick_now env2) = true).
  { apply force_write_spec. apply force_write_spec in Hf. cbn.
    now apply Qle_trans with (tick_now env). }
  pose proof (update_tick_running self1 api env2 raw2 t2 Hrun1 Ha Hraw2 Ht2)
    as Htick2.
  rewrite Hf2 in Htick2. cbn [negb andb] in Htick2.
  destruct Hrun as (Hr & _).
  apply reachable_packet_shape in Hr as (Hlen & _).
  eexists _, _, _, _. split_and!; [exact Htick | exact Htick2 | |].
  - apply list_lookup_insert_eq. lia.
  - apply list_lookup_insert_eq. cbn. rewrite length_insert. lia.
Qed.

Lemma failed_refresh_is_retried_witness :
  exists self1 self2 p1 p2,
    update_tick service_showing_42
      {| tick_data := region_reading f_42_0; tick_now := 1015;
         tick_written := Raise IOError; tick_now_after := 1015 |}
      = Ret (self1, [EvDeviceWrite p1]) /\
    update_tick self1
      {| tick_data := region_reading f_42_0; tick_now := 1016;
         tick_written := Ret tt; tick_now_after := 1016 |}
      = Ret (self2, [EvDeviceWrite p2]) /\
    p1 !! 2%nat = Some 42 /\ p2 !! 2%nat = Some 42.
Proof.
  apply (failed_refresh_is_retried service_showing_42
           (_cache_sensor_info api_unpopulated region_primary)
           _ _ f_42_0 f_42_0 42 42 IOError);
    try reflexivity; [apply service_showing_42_running | discriminate].
Defined.

(** ** What [start] leaves behind *)

Lemma connect_argus_true (self : CPUDisplayService) (att : argus_attempt) :
  (connect_argus self att).1 = true ->
  exists api, argus (connect_argus self att).2 = Some api.
Proof.
  unfold connect_argus.
  destruct (ArgusMonitorAPI_init _ _) as [api|e]; [|discriminate].
  intros _. now exists api.
Qed.

Lemma connect_loop_state (env : nat -> argus_attempt) (attempts : list nat) :
  forall self,
    reachable self ->
    reachable (connect_loop self attempts env).1.2 /\
    last_temp (connect_loop self attempts env).1.2 = last_temp self /\
    ((connect_loop self attempts env).1.1 = LoopBreak ->
     exists api, argus (connect_loop self attempts env).1.2 = Some api) /\
    (connect_loop self attempts env).1.1 <> LoopReturn true.
Proof.
  induction attempts as [|attempt rest IH]; intros self Hr; cbn [connect_loop].
  - split_and!; trivial; discriminate.
  - pose proof (reach_connect_argus self (env attempt) Hr) as Hr1.
    pose proof (connect_argus_fields self (env attempt)) as (_ & _ & Hl & _).
    pose proof (connect_argus_true self (env attempt)) as Hs.
    destruct (connect_argus self (env attempt)) as [ok self1].
    cbn [fst snd] in *.
    destruct ok; [split_and!; auto; discriminate|].
    case_if; [|split_and!; trivial; discriminate].
    specialize (IH self1 Hr1).
    destruct (connect_loop self1 rest env) as [[x self2] evs].
    cbn [fst snd] in *. destruct IH as (? & -> & ? & ?). now split_and!.
Qed.

(** X16. When [start] returns [True] on a service reached from [__init__],
    the service is in the Running state, with the deadline at 0.0 and
    [last_temp] and the report buffer as they were: the first iteration of
    the loop with a finite reading, at any clock from 0 on, is forced. *)
Theorem start_true_establishes_running (self : CPUDisplayService)
    (env : start_env) :
  reachable self ->
  (start self env).1.1 = Ret true ->
  running (start self env).1.2 /\
  next_mandatory_write_time (start self env).1.2 = 0%Q /\
  last_temp (start self env).1.2 = last_temp self /\
  packet (start self env).1.2 = packet self /\
  forall now, (0 <= now)%Q -> force_write (start self env).1.2 now = true.
Proof.
  intros Hr. unfold start.
  pose proof (connect_loop_state (start_attempts env)
                (seq 0 ARGUS_CONNECTION_MAX_RETRIES) self Hr)
    as (Hr1 & Hl1 & _ & Hret).
  pose proof (proj1 (connect_loop_inv (start_attempts env)
                (seq 0 ARGUS_CONNECTION_MAX_RETRIES) self)) as Hp1.
  destruct (connect_loop self _ _) as [[x self1] evs].
  cbn [fst snd] in Hr1, Hl1, Hret, Hp1.
  pose proof (reach_connect_display self1 (start_display env) Hr1) as Hr2.
  destruct x as [ | | b]; cbn [fst snd].
  3: { intros [= ->]. contradiction. }
  all: destruct (start_display env) as [u|e]; cbn; [|discriminate];
    (destruct (argus self1) as [api|] eqn:Ha; [|discriminate]);
    (destruct (get_all_cpu_temps (start_data env)); [|discriminate]);
    cbn; intros _; split_and!; trivial;
    [ split_and!; [cbn in Hr2; rewrite Ha in Hr2; exact Hr2 | cbn; eauto | reflexivity]
    | intros now Hnow; now apply force_write_spec ].
Qed.

Lemma start_true_establishes_running_witness :
  running (start CPUDisplayService_init env_third_time).1.2 /\
  next_mandatory_write_time (start CPUDisplayService_init env_third_time).1.2
    = 0%Q /\
  last_temp (start CPUDisplayService_init env_third_time).1.2 = -1.
Proof.
  destruct (start_true_establishes_running CPUDisplayService_init env_third_time)
    as (Hrun & Hn & Hl & _).
  - apply reach_init.
  - reflexivity.
  - split_and!; [exact Hrun | exact Hn | exact Hl].
Defined.

Lemma connect_loop_break (env : nat -> argus_attempt) (attempts : list nat) :
  forall self,
    last_temp (connect_loop self attempts env).1.2 = last_temp self /\
    ((connect_loop self attempts env).1.1 = LoopBreak ->
     exists api, argus (connect_loop self attempts env).1.2 = Some api).
Proof.
  induction attempts as [|attempt rest IH]; intros self; cbn [connect_loop].
  - split; [reflexivity | discriminate].
  - pose proof (connect_argus_fields self (env attempt)) as (_ & _ & Hl & _).
    pose proof (connect_argus_true self (env attempt)) as Hs.
    destruct (connect_argus self (env attempt)) as [ok self1].
    cbn [fst snd] in *.
    destruct ok; [split; auto|].
    case_if; [|split; [exact Hl | discriminate]].
    specialize (IH self1).
    destruct (connect_loop self1 rest env) as [[x self2] evs].
    cbn [fst snd] in *. destruct IH as (-> & ?). now split.
Qed.

(** X17. The result of [start], by the number [N] of attempts that fail
    before the first that succeeds (6 when all fail): [False] after six
    failures or when the display does not open; otherwise [True], unless
    listing the CPU temperatures raises, in which case [start] raises the
    same exception with both connections made and no update thread. *)
Theorem start_result (self : CPUDisplayService) (env : start_env) (N : nat) :
  (N <= ARGUS_CONNECTION_MAX_RETRIES)%nat ->
  (forall i, (i < N)%nat -> attempt_succeeds (start_attempts env i) = false) ->
  ((N < ARGUS_CONNECTION_MAX_RETRIES)%nat ->
   attempt_succeeds (start_attempts env N) = true) ->
  (start self env).1.1 =
    if (N <? ARGUS_CONNECTION_MAX_RETRIES)%nat then
      match start_display env with
      | Raise _ => Ret false
      | Ret _ =>
          match get_all_cpu_temps (start_data env) with
          | Ret _ => Ret true
          | Raise e => Raise e
          end
      end
    else Ret false.
Proof.
  intros HN Hfail Hok. unfold start.
  unfold ARGUS_CONNECTION_MAX_RETRIES in HN, Hok |- *.
  destruct (Nat.ltb_spec N 6) as [Hlt | Hge].
  - pose proof (connect_loop_break (start_attempts env) (seq 0 6) self)
      as [_ Hbreak].
    destruct (connect_loop_success (start_attempts env) 6 0 N self)
      as [self1 Hloop]; [reflexivity | exact Hlt | exact Hfail | exact (Hok Hlt) |].
    rewrite Hloop in Hbreak |- *. cbn [fst snd] in Hbreak.
    destruct (Hbreak eq_refl) as [api Ha].
    destruct (start_display env) as [u|e]; cbn; [|reflexivity].
    rewrite Ha. now destruct (get_all_cpu_temps (start_data env)).
  - assert (N = 6)%nat as -> by lia.
    destruct (connect_loop_failure (start_attempts env) 5 0 self) as [self1 Hloop];
      [reflexivity | exact Hfail |].
    now rewrite Hloop.
Qed.

Lemma start_result_witness :
  (start CPUDisplayService_init env_third_time).1.1 = Ret true /\
  (start CPUDisplayService_init
     {| start_attempts := start_attempts env_third_time;
        start_display := Ret tt;
        start_data := region_overrun |}).1.1 = Raise IndexError /\
  (start CPUDisplayService_init env_never).1.1 = Ret false.
Proof.
  split_and!.
  - apply (start_result CPUDisplayService_init env_third_time 2).
    + unfold ARGUS_CONNECTION_MAX_RETRIES. lia.
    + intros i Hi. destruct i as [|[|i]]; [reflexivity | reflexivity | lia].
    + reflexivity.
  - apply (start_result CPUDisplayService_init
             {| start_attempts := start_attempts env_third_time;
                start_display := Ret tt;
                start_data := region_overrun |} 2).
    + unfold ARGUS_CONNECTION_MAX_RETRIES. lia.
    + intros i Hi. destruct i as [|[|i]]; [reflexivity | reflexivity | lia].
    + reflexivity.
  - apply (start_result CPUDisplayService_init env_never 6).
    + unfold ARGUS_CONNECTION_MAX_RETRIES. lia.
    + reflexivity.
    + unfold ARGUS_CONNECTION_MAX_RETRIES. lia.
Defined.

(** X18. [start] hands no report to the device and leaves the report buffer
    and [last_temp] as they were: the first report is written by the update
    loop. *)
Theorem start_writes_nothing (self : CPUDisplayService) (env : start_env) :
  device_writes (start self env).2 = [] /\
  packet (start self env).1.2 = packet self /\
  last_temp (start self env).1.2 = last_temp self.
Proof.
  destruct (start_inv self env) as [Hp Hw]. split_and!; trivial.
  unfold start.
  pose proof (connect_loop_break (start_attempts env)
                (seq 0 ARGUS_CONNECTION_MAX_RETRIES) self) as [Hl _].
  destruct (connect_loop self _ _) as [[x self1] evs]. cbn [fst snd] in Hl.
  pose proof (connect_display_fields self1 (start_display env)) as (_ & _ & Hl2).
  destruct x; [ | |exact Hl];
    destruct (connect_display self1 (start_display env)) as [ok self2];
    cbn [fst snd] in Hl2; rewrite <- Hl, <- Hl2;
    (destruct ok; cbn [negb]; [|reflexivity]);
    (destruct (argus self2); [|reflexivity]);
    now destruct (get_all_cpu_temps (start_data env)).
Qed.

(** X19. When the mapping opens with a signature that is not yet Argus's
    at the read that fills the cache, and is Argus's at the [is_active] read
    that follows, [connect_argus] succeeds with an empty cache; from then on
    every read of the temperature under a matching signature raises
    [TypeError], which ends the update loop at its first such iteration. *)
Theorem connect_argus_late_signature (self : CPUDisplayService)
    (att : argus_attempt) :
  att_opened att = Ret tt ->
  is_active (att_data_init att) = false ->
  is_active (att_data_check att) = true ->
  (connect_argus self att).1 = true /\
  argus (connect_argus self att).2 = Some api_unpopulated /\
  (forall data,
     Signature data = ARGUS_SIGNATURE ->
     get_cpu_temp_raw api_unpopulated data = Raise TypeError) /\
  (forall env rest,
     Signature (tick_data env) = ARGUS_SIGNATURE ->
     update_loop (connect_argus self att).2 (env :: rest)
       = (Raise TypeError, (connect_argus self att).2, [])).
Proof.
  intros Hopen Hinit Hcheck.
  assert (Hraw : forall data, Signature data = ARGUS_SIGNATURE ->
                   get_cpu_temp_raw api_unpopulated data = Raise TypeError).
  { intros data Hsig. unfold get_cpu_temp_raw. cbn.
    apply N.eqb_eq in Hsig. now rewrite Hsig. }
  assert (Hconn : connect_argus self att =
            (true,
             {| argus := Some api_unpopulated; device := device self;
                packet := packet self; last_temp := last_temp self;
                next_mandatory_write_time := next_mandatory_write_time self |})).
  { unfold connect_argus, ArgusMonitorAPI_init, _cache_sensor_info.
    unfold is_active in Hinit. rewrite Hopen, Hinit. cbn.
    now rewrite Hcheck. }
  rewrite Hconn. cbn [fst snd]. split_and!; trivial.
  intros env rest Hsig. cbn [update_loop]. unfold update_tick. cbn [argus].
  now rewrite (Hraw _ Hsig).
Qed.

Lemma connect_argus_late_signature_witness :
  (connect_argus CPUDisplayService_init
     {| att_opened := Ret tt; att_data_init := region_stale;
        att_data_check := region_primary |}).1 = true /\
  get_cpu_temp_raw api_unpopulated region_primary = Raise TypeError.
Proof.
  destruct (connect_argus_late_signature CPUDisplayService_init
              {| att_opened := Ret tt; att_data_init := region_stale;
                 att_data_check := region_primary |}
              eq_refl eq_refl eq_refl) as (Hok & _ & Hraw & _).
  split; [exact Hok | exact (Hraw region_primary eq_refl)].
Defined.

(** ** The handles of the mapping *)

(** X20. [close] is idempotent: a second [close] makes no call to kernel32
    and leaves the handles as the first left them. *)
Theorem close_is_idempotent (self : mapping_handles) :
  close (close self).1 = ((close self).1, []).
Proof.
  destruct self as [h v]. unfold close. cbn [handle map_view].
  destruct (truthy v) as [v'|] eqn:Hv; cbn [handle map_view];
    destruct (truthy h) as [h'|] eqn:Hh; cbn [fst snd handle map_view truthy];
    rewrite ?Hv; cbn [fst snd handle map_view truthy]; rewrite ?Hh;
    reflexivity.
Qed.

(** X21. Every handle [_open_shared_memory] obtains is released once: when
    the mapping of the view fails, by [_open_shared_memory] itself before it
    raises; when it succeeds, by the [close] that follows, which unmaps the
    view, closes the handle and leaves both attributes [None]. *)
Theorem open_then_close_releases (open_ret map_ret : option N) :
  match truthy open_ret, truthy map_ret with
  | None, _ =>
      (_open_shared_memory mapping_handles_init open_ret map_ret).1.1
        = Raise OSError /\
      (_open_shared_memory mapping_handles_init open_ret map_ret).2
        = [OpenFileMappingW; GetLastError]
  | Some h, None =>
      (_open_shared_memory mapping_handles_init open_ret map_ret).1.1
        = Raise OSError /\
      (_open_shared_memory mapping_handles_init open_ret map_ret).2
        = [OpenFileMappingW; MapViewOfFile h; GetLastError; CloseHandle h]
  | Some h, Some v =>
      (_open_shared_memory mapping_handles_init open_ret map_ret).1.1 = Ret tt /\
      (_open_shared_memory mapping_handles_init open_ret map_ret).2
        = [OpenFileMappingW; MapViewOfFile h] /\
      close (_open_shared_memory mapping_handles_init open_ret map_ret).1.2
        = (mapping_handles_init, [UnmapViewOfFile v; CloseHandle h])
  end.
Proof.
  unfold _open_shared_memory. cbn [handle map_view].
  destruct (truthy open_ret) as [h|] eqn:Ho; cbn [fst snd handle map_view];
    [|now split].
  destruct (truthy map_ret) as [v|] eqn:Hm; cbn [fst snd handle map_view];
    [|now split].
  split_and!; try reflexivity.
  unfold close. cbn [handle map_view]. rewrite Hm. cbn [handle map_view].
  now rewrite Ho.
Qed.

(** ** The layout of the region *)

Lemma field_inside_structure (wchar : nat) (fields : list (string * ctype))
    (name : string) (off : nat) (t : ctype) :
  field_at wchar fields name = Some (off, t) ->
  (off + sizeof wchar t <= sizeof wchar (structure fields))%nat.
Proof.
  revert off. induction fields as [|[n ft] rest IH]; intros off; cbn [field_at];
    [discriminate|].
  change (sizeof wchar (structure ((n, ft) :: rest)))
    with (sizeof wchar ft + sizeof wchar (structure rest))%nat.
  generalize dependent (sizeof wchar (structure rest)). intros total IH.
  destruct (String.eqb n name).
  - intros [= <- <-]. apply Nat.le_add_r.
  - destruct (field_at wchar rest name) as [[off' t']|]; [|discriminate].
    intros [= <- <-]. specialize (IH off' eq_refl).
    rewrite <- Nat.add_assoc. now apply Nat.add_le_mono_l.
Qed.

Lemma sizeof_ArgusMonitorSensorData (wchar : nat) :
  sizeof wchar (structure ArgusMonitorSensorData_fields) = (20 + 96 * wchar)%nat.
Proof.
  unfold ArgusMonitorSensorData_fields, structure, MAX_LEN_LABEL, MAX_LEN_UNIT.
  cbn [map snd sizeof]. lia.
Qed.

Lemma offset_of_SensorData (wchar : nat) :
  field_at wchar ArgusMonitorData_fields "SensorData"
    = Some (232%nat,
            c_array (structure ArgusMonitorSensorData_fields) MAX_SENSOR_COUNT).
Proof. reflexivity. Qed.

(** X22. With a [c_wchar] of at most 4 bytes (2 on Windows), every field of
    [ArgusMonitorData], and every field of each of the 512 sensor records,
    lies inside the [MAPPING_SIZE] bytes of the mapped view: no read that
    ctypes lets through leaves the mapping. *)
Theorem region_fields_inside_mapping (wchar : nat) :
  (wchar <= 4)%nat ->
  (forall name off t,
     field_at wchar ArgusMonitorData_fields name = Some (off, t) ->
     (off + sizeof wchar t <= MAPPING_SIZE)%nat) /\
  (forall i name start len,
     (i < MAX_SENSOR_COUNT)%nat ->
     sensor_field_extent wchar i name = Some (start, len) ->
     (start + len <= MAPPING_SIZE)%nat).
Proof.
  intros Hw.
  pose proof (sizeof_ArgusMonitorSensorData wchar) as Hrec.
  assert (Hall : (sizeof wchar (structure ArgusMonitorData_fields)
                  = 232 + MAX_SENSOR_COUNT * (20 + 96 * wchar))%nat).
  { unfold ArgusMonitorData_fields, ArgusMonitorSensorData_fields, structure,
      MAX_SENSOR_COUNT, SENSOR_TYPE_MAX_SENSORS, MAX_LEN_LABEL, MAX_LEN_UNIT.
    cbn [map snd sizeof]. lia. }
  unfold MAPPING_SIZE, MAX_SENSOR_COUNT in *. split.
  - intros name off t Hf. apply field_inside_structure in Hf. lia.
  - intros i name start len Hi. unfold sensor_field_extent.
    rewrite offset_of_SensorData.
    destruct (field_at wchar ArgusMonitorSensorData_fields name)
      as [[off t]|] eqn:Hf; [|discriminate].
    apply field_inside_structure in Hf. rewrite Hrec in Hf |- *.
    intros [= Hs Hl]. nia.
Qed.

Lemma region_fields_inside_mapping_witness :
  exists start len,
    sensor_field_extent 2 511 "Value" = Some (start, len) /\
    N.of_nat start = 108760%N /\ len = 8%nat /\
    (start + len <= MAPPING_SIZE)%nat.
Proof.
  eexists _, _. split_and!; [reflexivity | reflexivity | reflexivity |].
  apply (proj2 (region_fields_inside_mapping 2 ltac:(lia)) 511%nat "Value"%string).
  - unfold MAX_SENSOR_COUNT. lia.
  - reflexivity.
Defined.

(** ** What [write_temp] leaves alone *)

(** X23. [write_temp] never changes the two connections, and of the report
    buffer it changes byte 2 at most: the length and every other byte,
    report ID and command code among them, stay as they were. *)
Theorem write_temp_frame (self : CPUDisplayService) (raw : spec_float)
    (force : bool) (written : result unit) (now : Q) :
  argus (write_temp self raw force written now).1.2 = argus self /\
  device (write_temp self raw force written now).1.2 = device self /\
  length (packet (write_temp self raw force written now).1.2)
    = length (packet self) /\
  forall i, i <> 2%nat ->
    packet (write_temp self raw force written now).1.2 !! i = packet self !! i.
Proof.
  destruct (write_temp_connections self raw force written now) as [Ha Hd].
  split_and!; trivial.
  - unfold write_temp.
    destruct (device self); [|reflexivity].
    destruct (rounded_temp raw) as [t|]; [|reflexivity].
    destruct (negb force && (t =? last_temp self)); [reflexivity|].
    destruct (bytearray_setitem (packet self) 2 t) as [p1|] eqn:Hset;
      [|reflexivity].
    apply bytearray_setitem_ret in Hset as [-> _].
    destruct written; cbn; apply length_insert.
  - intros i Hi. unfold write_temp.
    destruct (device self); [|reflexivity].
    destruct (rounded_temp raw) as [t|]; [|reflexivity].
    destruct (negb force && (t =? last_temp self)); [reflexivity|].
    destruct (bytearray_setitem (packet self) 2 t) as [p1|] eqn:Hset;
      [|reflexivity].
    apply bytearray_setitem_ret in Hset as [-> _].
    destruct written; cbn; now apply list_lookup_insert_ne.
Qed.

Lemma write_temp_frame_witness :
  packet (write_temp service_showing_42 f_150 true (Ret tt) 1001).1.2 !! 1%nat
    = Some USB_PACKET_COMMAND /\
  packet (write_temp service_showing_42 f_150 true (Ret tt) 1001).1.2 !! 64%nat
    = Some 0.
Proof.
  split.
  - rewrite (proj2 (proj2 (proj2
      (write_temp_frame service_showing_42 f_150 true (Ret tt) 1001%Q))) 1%nat);
      [reflexivity | discriminate].
  - rewrite (proj2 (proj2 (proj2
      (write_temp_frame service_showing_42 f_150 true (Ret tt) 1001%Q))) 64%nat);
      [reflexivity | discriminate].
Defined.
